(** * A Rocq model of the Palletizer Go client (client.go)

    The package is a typed HTTP client: [Pack] serialises a [PackingRequest]
    to JSON, posts it, and decodes the answer into a [PackingResponse];
    [Health] and [Metrics] ask the server how it is; [StandardPallet],
    [StandardPallet4048] and four unit conversions complete it.  The model
    follows the code:

    - [float64] is the kernel's binary64 ([PrimFloat]), so [inches * 25.4]
      rounds here exactly as it does in Go;
    - Go strings and byte slices are [string] (sequences of 8-bit
      characters); Go's [int] is [Z];
    - a slice is [nil] or a list of elements, because [encoding/json] writes
      the two differently; where [encoding/json] stores into a slice, the
      elements that the backing array holds beyond the length are kept
      beside it;
    - a Go result pair [(T, error)] of a library call is [error + T]
      ([inl] the error), threaded with the error monad of ExtLib;
    - the HTTP client held by [Client] is a function from the request to what
      the exchange produced, as a test double behind [NewWithHTTPClient] is.

    The parts of the Go standard library that [Pack] runs through
    ([strconv], [unicode/utf8], [encoding/json], [fmt.Errorf], [errors.Is])
    are modelled in the modules that come first.  [Health] and [Metrics],
    two GET requests whose answers are decoded from the stream, follow
    [Pack]. *)

From Stdlib Require Import ZArith QArith Qfield Floats String Ascii List Bool DecimalString DecimalZ Lia.
From ExtLib Require Import Structures.Monad Data.Monads.EitherMonad.
Import ListNotations.
Import MonadNotation.

Set Warnings "-inexact-float,-register-all".

Open Scope monad_scope.
Open Scope string_scope.
Open Scope Z_scope.

(** String concatenation, Go's [+] on strings. *)
Infix "+++" := String.append (at level 60, right associativity).

(** The double quote character, code 34. *)
Definition dquote : ascii := "034"%char.

Definition code (c : ascii) : Z := Z.of_N (N_of_ascii c).
Definition char (z : Z) : ascii := ascii_of_N (Z.to_N z).

Definition len (s : string) : Z := Z.of_nat (String.length s).

(** [s[a:a+n]], cut short at the end of [s]. *)
Definition substr (a n : Z) (s : string) : string :=
  String.substring (Z.to_nat a) (Z.to_nat n) s.

Definition zeros (n : Z) : string :=
  string_of_list_ascii (repeat "0"%char (Z.to_nat n)).

Definition is_digit (c : ascii) : bool := (48 <=? code c) && (code c <=? 57).

(** The longest prefix whose characters satisfy [p], and the rest. *)
Fixpoint span (p : ascii -> bool) (s : list ascii) : list ascii * list ascii :=
  match s with
  | c :: r => if p c then let '(a, b) := span p r in (c :: a, b) else ([], s)
  | [] => ([], [])
  end.

(** The number written by a run of decimal digits. *)
Definition digits_value (ds : list ascii) : Z :=
  fold_left (fun acc c => 10 * acc + (code c - 48)) ds 0.

(** * strconv *)

Module strconv.

(** [strconv.FormatInt(i, 10)] and [strconv.Itoa]. *)
Definition FormatInt (i : Z) : string := NilZero.string_of_int (Z.to_int i).

(** [strconv.ParseInt(s, 10, 64)] on a JSON number literal: only an optional
    minus sign and digits are an integer, and the value must fit in 64
    bits. *)
Definition ParseInt (s : string) : option Z :=
  let cs := list_ascii_of_string s in
  let '(neg, ds) := match cs with
                    | "-"%char :: r => (true, r)
                    | _ => (false, cs)
                    end in
  match ds with
  | [] => None
  | _ :: _ =>
      if forallb is_digit ds then
        let v := if neg then - digits_value ds else digits_value ds in
        if (- 2 ^ 63 <=? v) && (v <? 2 ^ 63) then Some v else None
      else None
  end.

(** ** Decimal to binary64

    The value [D * 10 ^ E] rounded to the nearest binary64, ties to even, by
    the correctly rounded operations of [SpecFloat]: an integer is
    normalised, a quotient of two integers is divided. *)
Definition round_decimal (neg : bool) (D E : Z) : spec_float :=
  match D with
  | Zpos d =>
      if 0 <=? E
      then binary_normalize prec emax (if neg then - (D * 10 ^ E) else D * 10 ^ E) 0 neg
      else SFdiv prec emax (S754_finite neg d 0)
                           (S754_finite false (Z.to_pos (10 ^ (- E))) 0)
  | _ => S754_zero neg
  end.

(** [strconv.ParseFloat(s, 64)] on a JSON number literal
    [-? digits (. digits)? ((e|E) (+|-)? digits)?].  A value that rounds to
    an infinity is a range error ([None]); one that underflows is zero. *)
Definition ParseFloat (s : string) : option float :=
  let cs := list_ascii_of_string s in
  let '(neg, s1) := match cs with
                    | "-"%char :: r => (true, r)
                    | _ => (false, cs)
                    end in
  let '(ip, s2) := span is_digit s1 in
  let '(fp, s3) := match s2 with
                   | "."%char :: r => span is_digit r
                   | _ => ([], s2)
                   end in
  let ex := match s3 with
            | c :: r =>
                if (code c =? 101) || (code c =? 69) then
                  match r with
                  | "-"%char :: r' => - digits_value (fst (span is_digit r'))
                  | "+"%char :: r' => digits_value (fst (span is_digit r'))
                  | _ => digits_value (fst (span is_digit r))
                  end
                else 0
            | [] => 0
            end in
  match round_decimal neg (digits_value (ip ++ fp)) (ex - Z.of_nat (List.length fp)) with
  | S754_infinity _ | S754_nan => None
  | f => Some (SF2Prim f)
  end.

(** ** Binary64 to the shortest decimal

    [strconv.FormatFloat(f, fmt, -1, 64)] prints the shortest decimal that
    reads back as [f].  For [f = m * 2 ^ e] the decimals that read back as
    [f] lie between the midpoints to its two neighbours, ends included when
    [m] is even.  With [V = 4 m], [U = V + 2] and [L = V - 2] (or [V - 1]
    where the lower neighbour is closer, at a power of two) the three
    numbers are [V], [U] and [L] times [2 ^ (e - 2)]. *)

Definition pow2n (e : Z) : Z := 2 ^ Z.max e 0.
Definition pow10n (e : Z) : Z := 10 ^ Z.max e 0.

(** The decimals with last digit at position [p] (units of [10 ^ p]) next to
    the value: [t] below and [t + 1] above.  The answer is the one inside
    the interval; when both are, the nearer, and the even one at a tie. *)
Definition try_pos (V L U e2 : Z) (incl : bool) (p : Z) : option Z :=
  let num := pow2n e2 * pow10n (- p) in
  let A := pow2n (- e2) * pow10n p in
  let Vn := V * num in
  let Ln := L * num in
  let Un := U * num in
  let t := Vn / A in
  let okdown := (Ln <? t * A) || (incl && (Ln =? t * A)) in
  let okup := ((t + 1) * A <? Un) || (incl && ((t + 1) * A =? Un)) in
  let r2 := 2 * (Vn - t * A) in
  let up_nearer := (A <? r2) || ((A =? r2) && Z.odd t) in
  match okdown, okup with
  | true, true => Some (if up_nearer then t + 1 else t)
  | true, false => Some t
  | false, true => Some (t + 1)
  | false, false => None
  end.

(** Walk the digit positions downwards until a decimal fits. *)
Fixpoint shortest_loop (fuel : nat) (V L U e2 : Z) (incl : bool) (p : Z) : Z * Z :=
  match try_pos V L U e2 incl p with
  | Some D => (D, p)
  | None =>
      match fuel with
      | O => (V * pow2n e2 * pow10n (- p) / (pow2n (- e2) * pow10n p), p)
      | S f => shortest_loop f V L U e2 incl (p - 1)
      end
  end.

Fixpoint strip_zeros (fuel : nat) (D p : Z) : Z * Z :=
  match fuel with
  | O => (D, p)
  | S f =>
      if (D mod 10 =? 0) && negb (D =? 0)
      then strip_zeros f (D / 10) (p + 1)
      else (D, p)
  end.

(** The shortest decimal [D * 10 ^ p] of the positive float [m * 2 ^ e].
    The walk starts above the first digit: [2 ^ a > m * 2 ^ e] and
    [0.30103 > log10 2] bound the decimal exponent.  Seventeen digits always
    suffice for a binary64; the fuel leaves room for the start offset. *)
Definition shortest (m : positive) (e : Z) : Z * Z :=
  let V := 4 * Zpos m in
  let U := V + 2 in
  let L := if (Zpos m =? 2 ^ 52) && (-1074 <? e) then V - 1 else V - 2 in
  let a := e + Z.log2 (Zpos m) + 1 in
  let k0 := (a * 30103) / 100000 + 2 in
  let '(D, p) := shortest_loop 30 V L U (e - 2) (Z.even (Zpos m)) k0 in
  strip_zeros 30 D p.

(** [%f] of the digits [digs] with the decimal point after [dp] of them. *)
Definition fmtF (neg : bool) (digs : string) (dp : Z) : string :=
  let nd := len digs in
  (if neg then "-" else "") +++
  (if 0 <? dp then substr 0 (Z.min nd dp) digs +++ zeros (dp - nd) else "0") +++
  (if dp <? nd then "." +++ zeros (- dp) +++ substr (Z.max dp 0) nd digs else "").

(** [%e]: one digit, the others after the point, an exponent of at least two
    digits. *)
Definition fmtE (neg : bool) (digs : string) (dp : Z) : string :=
  let nd := len digs in
  let exp := dp - 1 in
  (if neg then "-" else "") +++ substr 0 1 digs +++
  (if 1 <? nd then "." +++ substr 1 nd digs else "") +++
  "e" +++ (if exp <? 0 then "-" else "+") +++
  (if Z.abs exp <? 10 then "0" else "") +++ FormatInt (Z.abs exp).

(** [strconv.FormatFloat(f, fmt, -1, 64)] for [fmt] one of ['f'] (when
    [expfmt] is false) and ['e']. *)
Definition FormatFloat (f : float) (expfmt : bool) : string :=
  match Prim2SF f with
  | S754_nan => "NaN"
  | S754_infinity s => if s then "-Inf" else "+Inf"
  | S754_zero s => if expfmt then fmtE s "0" 1 else fmtF s "" 0
  | S754_finite s m e =>
      let '(D, p) := shortest m e in
      let digs := FormatInt D in
      if expfmt then fmtE s digs (len digs + p) else fmtF s digs (len digs + p)
  end.

End strconv.

(** * unicode/utf8 *)

Module utf8.

(** [utf8.RuneError], U+FFFD. *)
Definition RuneError : Z := 0xFFFD.

Definition between (b lo hi : Z) : bool := (lo <=? b) && (b <=? hi).

(** The six low bits of a continuation byte. *)
Definition low6 (b : Z) : Z := Z.land b 0x3F.

(** [utf8.DecodeRune]: the first rune of [p] and its width in bytes.  A byte
    that does not start a well-formed sequence is [RuneError] of width 1. *)
Definition DecodeRune (p : list Z) : Z * nat :=
  match p with
  | [] => (RuneError, 0%nat)
  | b0 :: r =>
      if b0 <? 0x80 then (b0, 1%nat)
      else if between b0 0xC2 0xDF then
        match r with
        | b1 :: _ =>
            if between b1 0x80 0xBF
            then (Z.lor (Z.shiftl (Z.land b0 0x1F) 6) (low6 b1), 2%nat)
            else (RuneError, 1%nat)
        | _ => (RuneError, 1%nat)
        end
      else if between b0 0xE0 0xEF then
        let lo := if b0 =? 0xE0 then 0xA0 else 0x80 in
        let hi := if b0 =? 0xED then 0x9F else 0xBF in
        match r with
        | b1 :: b2 :: _ =>
            if between b1 lo hi && between b2 0x80 0xBF
            then (Z.lor (Z.shiftl (Z.land b0 0x0F) 12)
                        (Z.lor (Z.shiftl (low6 b1) 6) (low6 b2)), 3%nat)
            else (RuneError, 1%nat)
        | _ => (RuneError, 1%nat)
        end
      else if between b0 0xF0 0xF4 then
        let lo := if b0 =? 0xF0 then 0x90 else 0x80 in
        let hi := if b0 =? 0xF4 then 0x8F else 0xBF in
        match r with
        | b1 :: b2 :: b3 :: _ =>
            if between b1 lo hi && between b2 0x80 0xBF && between b3 0x80 0xBF
            then (Z.lor (Z.shiftl (Z.land b0 0x07) 18)
                        (Z.lor (Z.shiftl (low6 b1) 12)
                               (Z.lor (Z.shiftl (low6 b2) 6) (low6 b3))), 4%nat)
            else (RuneError, 1%nat)
        | _ => (RuneError, 1%nat)
        end
      else (RuneError, 1%nat)
  end.

(** [utf8.AppendRune]: the bytes of a rune; a surrogate or a value out of
    range is written as [RuneError]. *)
Definition EncodeRune (r : Z) : list Z :=
  let r := if (r <? 0) || (0x10FFFF <? r) || between r 0xD800 0xDFFF
           then RuneError else r in
  if r <=? 0x7F then [r]
  else if r <=? 0x7FF then
    [Z.lor 0xC0 (Z.shiftr r 6); Z.lor 0x80 (low6 r)]
  else if r <=? 0xFFFF then
    [Z.lor 0xE0 (Z.shiftr r 12); Z.lor 0x80 (low6 (Z.shiftr r 6)); Z.lor 0x80 (low6 r)]
  else
    [Z.lor 0xF0 (Z.shiftr r 18); Z.lor 0x80 (low6 (Z.shiftr r 12));
     Z.lor 0x80 (low6 (Z.shiftr r 6)); Z.lor 0x80 (low6 r)].

End utf8.

(** * Errors

    An error value is one of the shapes that reach [Pack]: the text of a
    [fmt.Errorf] without [%w]; a [fmt.Errorf] whose format ends in [%w],
    kept as the text before the verb and the wrapped error; the two
    sentinels of [context]; the errors of [encoding/json] (the message and
    offset of a syntax error are left out); and [*url.Error], in which
    [net/http] and [net/url] wrap what went wrong. *)

Inductive error : Type :=
| errorString (s : string)
| wrapError (msg : string) (err : error)
| Canceled
| DeadlineExceeded
| SyntaxError
| UnmarshalTypeError (Value : string)
| UnsupportedValueError (Str : string)
| urlError (Op URL : string) (Err : error).

Definition error_eq_dec (a b : error) : {a = b} + {a <> b}.
Proof. decide equality; apply string_dec. Defined.

(** [errors.Unwrap]. *)
Definition Unwrap (e : error) : option error :=
  match e with
  | wrapError _ err => Some err
  | urlError _ _ err => Some err
  | _ => None
  end.

(** [errors.Is(e, target)]: [target] is [e] or an error in its chain.  Go
    compares error values with [==]; for the sentinels, the targets used
    here, that is equality of constructors. *)
Fixpoint errors_Is (e target : error) : bool :=
  if error_eq_dec e target then true
  else match e with
       | wrapError _ err => errors_Is err target
       | urlError _ _ err => errors_Is err target
       | _ => false
       end.

(** The result of a library call that returns [(T, error)]. *)
Abbreviation result := (sum error).

(** * encoding/json *)

Module json.

Inductive value : Type :=
| JNull
| JBool (b : bool)
| JNumber (literal : string)
| JString (s : string)
| JArray (elems : list value)
| JObject (members : list (string * value)).

(** ** Reading a text *)

Definition is_space (c : ascii) : bool :=
  let n := code c in (n =? 32) || (n =? 9) || (n =? 13) || (n =? 10).

Fixpoint skip_ws (s : list ascii) : list ascii :=
  match s with
  | c :: r => if is_space c then skip_ws r else s
  | [] => []
  end.

Definition hexval (c : ascii) : option Z :=
  let n := code c in
  if (48 <=? n) && (n <=? 57) then Some (n - 48)
  else if (97 <=? n) && (n <=? 102) then Some (n - 87)
  else if (65 <=? n) && (n <=? 70) then Some (n - 55)
  else None.

(** [getu4]: the number written by four hexadecimal digits. *)
Definition hex4 (a b c d : ascii) : option Z :=
  match hexval a, hexval b, hexval c, hexval d with
  | Some x, Some y, Some z, Some w => Some (((x * 16 + y) * 16 + z) * 16 + w)
  | _, _, _, _ => None
  end.

(** [utf16.DecodeRune] on a high and a low surrogate. *)
Definition surrogate_pair (r1 r2 : Z) : option Z :=
  if utf8.between r1 0xD800 0xDBFF && utf8.between r2 0xDC00 0xDFFF
  then Some (Z.shiftl (r1 - 0xD800) 10 + (r2 - 0xDC00) + 0x10000)
  else None.

(** Push the bytes of a rune on a reversed output. *)
Definition push_rune (r : Z) (acc : list ascii) : list ascii :=
  rev_append (map char (utf8.EncodeRune r)) acc.

(** The body of a string literal, after its opening quote: the decoded text
    and what follows the closing quote.  Escapes are resolved, a lone
    surrogate and a byte that is not UTF-8 become U+FFFD, a raw control
    character is an error.  [skip] counts the continuation bytes of a rune
    already found well formed; [acc] is the output so far, reversed. *)
Fixpoint scan_string (skip : nat) (s : list ascii) (acc : list ascii)
  : option (string * list ascii) :=
  match s with
  | [] => None
  | c :: r =>
      match skip with
      | S k => scan_string k r (c :: acc)
      | O =>
          let b := code c in
          if b =? 34 then Some (string_of_list_ascii (rev acc), r)
          else if b <? 32 then None
          else if b =? 92 then
            match r with
            | [] => None
            | e :: r1 =>
                let n := code e in
                if n =? 117 then
                  match r1 with
                  | h1 :: h2 :: h3 :: h4 :: r2 =>
                      match hex4 h1 h2 h3 h4 with
                      | None => None
                      | Some rr =>
                          if utf8.between rr 0xD800 0xDFFF then
                            match r2 with
                            | b1 :: u1 :: g1 :: g2 :: g3 :: g4 :: r3 =>
                                match (if (code b1 =? 92) && (code u1 =? 117)
                                       then hex4 g1 g2 g3 g4 else None) with
                                | Some rr1 =>
                                    match surrogate_pair rr rr1 with
                                    | Some dec => scan_string O r3 (push_rune dec acc)
                                    | None => scan_string O r2 (push_rune utf8.RuneError acc)
                                    end
                                | None => scan_string O r2 (push_rune utf8.RuneError acc)
                                end
                            | _ => scan_string O r2 (push_rune utf8.RuneError acc)
                            end
                          else scan_string O r2 (push_rune rr acc)
                      end
                  | _ => None
                  end
                else if (n =? 34) || (n =? 92) || (n =? 47) then scan_string O r1 (e :: acc)
                else if n =? 98 then scan_string O r1 (char 8 :: acc)
                else if n =? 102 then scan_string O r1 (char 12 :: acc)
                else if n =? 110 then scan_string O r1 (char 10 :: acc)
                else if n =? 114 then scan_string O r1 (char 13 :: acc)
                else if n =? 116 then scan_string O r1 (char 9 :: acc)
                else None
            end
          else if b <? 0x80 then scan_string O r (c :: acc)
          else
            match utf8.DecodeRune (map code (firstn 4 s)) with
            | (_, S (S n)) => scan_string (S n) r (c :: acc)
            | _ => scan_string O r (push_rune utf8.RuneError acc)
            end
      end
  end.

(** A number literal at the head of [s] and what follows it:
    [-? (0 | [1-9] digits) (. digits+)? ((e|E) (+|-)? digits+)?]. *)
Definition scan_number (s : list ascii) : option (string * list ascii) :=
  let '(sign, s1) := match s with
                     | "-"%char :: r => (["-"%char], r)
                     | _ => ([], s)
                     end in
  let int_part := match s1 with
                  | "0"%char :: r => Some (["0"%char], r)
                  | c :: _ => if is_digit c then Some (span is_digit s1) else None
                  | [] => None
                  end in
  match int_part with
  | None => None
  | Some (ip, s2) =>
      let frac := match s2 with
                  | "."%char :: r =>
                      match span is_digit r with
                      | ([], _) => None
                      | (fd, r') => Some ("."%char :: fd, r')
                      end
                  | _ => Some ([], s2)
                  end in
      match frac with
      | None => None
      | Some (fp, s3) =>
          let expo := match s3 with
                      | c :: r =>
                          if (code c =? 101) || (code c =? 69) then
                            let '(sg, r1) := match r with
                                             | "-"%char :: r' => (["-"%char], r')
                                             | "+"%char :: r' => (["+"%char], r')
                                             | _ => ([], r)
                                             end in
                            match span is_digit r1 with
                            | ([], _) => None
                            | (ed, r2) => Some (c :: sg ++ ed, r2)
                            end
                          else Some ([], s3)
                      | [] => Some ([], s3)
                      end in
          match expo with
          | None => None
          | Some (ep, s4) => Some (string_of_list_ascii (sign ++ ip ++ fp ++ ep), s4)
          end
      end
  end.

(** [s] without the prefix [p], when it starts with it. *)
Fixpoint strip_prefix (p s : list ascii) : option (list ascii) :=
  match p, s with
  | [], _ => Some s
  | a :: p', b :: s' => if Ascii.eqb a b then strip_prefix p' s' else None
  | _ :: _, [] => None
  end.

(** The decoder refuses a text nested deeper than this. *)
Definition maxNestingDepth : Z := 10000.

(** One value at the head of [s], and the rest.  Every call consumes at
    least one character of a well-formed text, so a fuel above the length of
    the text never runs out. *)
Fixpoint parse_value (fuel : nat) (depth : Z) (s : list ascii) {struct fuel}
  : option (value * list ascii) :=
  match fuel with
  | O => None
  | S fuel' =>
      match skip_ws s with
      | [] => None
      | c :: r =>
          let b := code c in
          if b =? 123 then
            if maxNestingDepth <=? depth then None
            else match skip_ws r with
                 | c' :: r' =>
                     if code c' =? 125 then Some (JObject [], r')
                     else parse_members fuel' (depth + 1) r []
                 | [] => None
                 end
          else if b =? 91 then
            if maxNestingDepth <=? depth then None
            else match skip_ws r with
                 | c' :: r' =>
                     if code c' =? 93 then Some (JArray [], r')
                     else parse_elements fuel' (depth + 1) r []
                 | [] => None
                 end
          else if b =? 34 then
            match scan_string O r [] with
            | Some (str, r') => Some (JString str, r')
            | None => None
            end
          else if b =? 116 then
            option_map (pair (JBool true)) (strip_prefix (list_ascii_of_string "rue") r)
          else if b =? 102 then
            option_map (pair (JBool false)) (strip_prefix (list_ascii_of_string "alse") r)
          else if b =? 110 then
            option_map (pair JNull) (strip_prefix (list_ascii_of_string "ull") r)
          else
            match scan_number (c :: r) with
            | Some (lit, r') => Some (JNumber lit, r')
            | None => None
            end
      end
  end
with parse_elements (fuel : nat) (depth : Z) (s : list ascii) (acc : list value)
  {struct fuel} : option (value * list ascii) :=
  match fuel with
  | O => None
  | S fuel' =>
      match parse_value fuel' depth s with
      | None => None
      | Some (v, r) =>
          match skip_ws r with
          | c :: r' =>
              if code c =? 44 then parse_elements fuel' depth r' (v :: acc)
              else if code c =? 93 then Some (JArray (rev (v :: acc)), r')
              else None
          | [] => None
          end
      end
  end
with parse_members (fuel : nat) (depth : Z) (s : list ascii)
  (acc : list (string * value)) {struct fuel} : option (value * list ascii) :=
  match fuel with
  | O => None
  | S fuel' =>
      match skip_ws s with
      | q :: r =>
          if code q =? 34 then
            match scan_string O r [] with
            | None => None
            | Some (key, r1) =>
                match skip_ws r1 with
                | colon :: r2 =>
                    if code colon =? 58 then
                      match parse_value fuel' depth r2 with
                      | None => None
                      | Some (v, r3) =>
                          match skip_ws r3 with
                          | c :: r4 =>
                              if code c =? 44
                              then parse_members fuel' depth r4 ((key, v) :: acc)
                              else if code c =? 125
                              then Some (JObject (rev ((key, v) :: acc)), r4)
                              else None
                          | [] => None
                          end
                      end
                    else None
                | [] => None
                end
            end
          else None
      | [] => None
      end
  end.

(** The value a whole text denotes: one value, white space around it. *)
Definition parse (data : string) : option value :=
  let s := list_ascii_of_string data in
  match parse_value (S (List.length s)) 0 s with
  | Some (v, r) => match skip_ws r with [] => Some v | _ :: _ => None end
  | None => None
  end.

(** [json.Valid]. *)
Definition Valid (data : string) : bool :=
  match parse data with Some _ => true | None => false end.

(** ** Writing a text *)

Definition hexdigit (n : Z) : ascii :=
  if n <? 10 then char (48 + n) else char (87 + n).

(** An ASCII byte inside a string literal, HTML escaping on as in
    [json.Marshal]: the quote and the backslash get a backslash; the control
    characters their short escape or [\u00XX]; [<], [>] and [&] are written
    [\u00XX] as well. *)
Definition escape_ascii (c : ascii) : list ascii :=
  let b := code c in
  if (b =? 34) || (b =? 92) then ["\"%char; c]
  else if b =? 8 then ["\"%char; "b"%char]
  else if b =? 12 then ["\"%char; "f"%char]
  else if b =? 10 then ["\"%char; "n"%char]
  else if b =? 13 then ["\"%char; "r"%char]
  else if b =? 9 then ["\"%char; "t"%char]
  else if (b <? 32) || (b =? 60) || (b =? 62) || (b =? 38) then
    ["\"%char; "u"%char; "0"%char; "0"%char;
     hexdigit (Z.shiftr b 4); hexdigit (Z.land b 15)]
  else [c].

(** The inside of a string literal.  A byte that is not UTF-8 is written
    as the escape of U+FFFD; U+2028 and U+2029 are escaped; other runes are copied. *)
Fixpoint quote_loop (skip : nat) (s : list ascii) : list ascii :=
  match s with
  | [] => []
  | c :: r =>
      match skip with
      | S k => c :: quote_loop k r
      | O =>
          if code c <? 0x80 then escape_ascii c ++ quote_loop O r
          else
            match utf8.DecodeRune (map code (firstn 4 s)) with
            | (rn, S (S n)) =>
                if (rn =? 0x2028) || (rn =? 0x2029) then
                  match r with
                  | _ :: _ :: r2 =>
                      list_ascii_of_string ("\" +++ "u202") ++ hexdigit (Z.land rn 15) :: quote_loop O r2
                  | _ => []
                  end
                else c :: quote_loop (S n) r
            | _ => list_ascii_of_string ("\" +++ "ufffd") ++ quote_loop O r
            end
      end
  end.

(** A string as a JSON string literal. *)
Definition quote (s : string) : string :=
  String dquote (string_of_list_ascii (quote_loop O (list_ascii_of_string s) ++ [dquote])).

Fixpoint join (sep : string) (l : list string) : string :=
  match l with
  | [] => ""
  | [x] => x
  | x :: r => x +++ sep +++ join sep r
  end.

(** The compact text of a value, as [json.Marshal] lays it out: no white
    space, members in the order given. *)
Fixpoint render (v : value) : string :=
  match v with
  | JNull => "null"
  | JBool b => if b then "true" else "false"
  | JNumber lit => lit
  | JString s => quote s
  | JArray l => "[" +++ join "," (map render l) +++ "]"
  | JObject m =>
      "{" +++ join "," (map (fun kv => quote (fst kv) +++ ":" +++ render (snd kv)) m) +++ "}"
  end.

(** ** Encoders of the basic types *)

(** The exponent of [%e] as JSON wants it: [e-09] becomes [e-9]. *)
Definition clean_exponent (b : string) : string :=
  match rev (list_ascii_of_string b) with
  | d :: z :: sg :: e :: rest =>
      if (code e =? 101) && ((code sg =? 45) || (code sg =? 43)) && (code z =? 48)
      then string_of_list_ascii (rev (d :: sg :: e :: rest))
      else b
  | _ => b
  end.

(** [floatEncoder] for a [float64]: NaN and the infinities cannot be
    written; numbers below [1e-6] or from [1e21] on take the exponent
    form. *)
Definition encodeFloat64 (f : float) : result value :=
  if PrimFloat.is_nan f || PrimFloat.is_infinity f
  then inl (UnsupportedValueError (strconv.FormatFloat f false))
  else
    let a := PrimFloat.abs f in
    let expfmt := negb (PrimFloat.eqb a 0%float)
                  && (PrimFloat.ltb a 1e-6%float || PrimFloat.leb 1e21%float a) in
    let b := strconv.FormatFloat f expfmt in
    inr (JNumber (if expfmt then clean_exponent b else b)).

Definition encodeInt (i : Z) : value := JNumber (strconv.FormatInt i).

(** A slice: [null] when nil, else the array of its elements. *)
Fixpoint encodeList {A : Type} (enc : A -> result value) (l : list A)
  : result (list value) :=
  match l with
  | [] => ret []
  | x :: r => v <- enc x ;; vs <- encodeList enc r ;; ret (v :: vs)
  end.

Definition encodeSlice {A : Type} (enc : A -> result value) (s : option (list A))
  : result value :=
  match s with
  | None => ret JNull
  | Some l => vs <- encodeList enc l ;; ret (JArray vs)
  end.

(** ** Decoders of the basic types

    A decoder stores a JSON value into a Go value: it takes the value the
    destination holds and returns the one it holds afterwards.  [null] leaves
    a number, a string, a boolean or a struct as it is and makes a slice
    nil.  A value of the wrong kind is an [UnmarshalTypeError] naming the
    kind.  The decoder of [encoding/json] notes such an error and goes on to
    the end of the text before it returns the first one it noted; the
    callers of this package drop what was stored when there is an error, so
    the decoders here stop at the first error. *)

Definition kind (v : value) : string :=
  match v with
  | JNull => "null"
  | JBool _ => "bool"
  | JNumber _ => "number"
  | JString _ => "string"
  | JArray _ => "array"
  | JObject _ => "object"
  end.

Definition decodeFloat64 (v : value) (cur : float) : result float :=
  match v with
  | JNull => ret cur
  | JNumber lit =>
      match strconv.ParseFloat lit with
      | Some f => ret f
      | None => inl (UnmarshalTypeError ("number " +++ lit))
      end
  | _ => inl (UnmarshalTypeError (kind v))
  end.

Definition decodeInt (v : value) (cur : Z) : result Z :=
  match v with
  | JNull => ret cur
  | JNumber lit =>
      match strconv.ParseInt lit with
      | Some n => ret n
      | None => inl (UnmarshalTypeError ("number " +++ lit))
      end
  | _ => inl (UnmarshalTypeError (kind v))
  end.

Definition decodeString (v : value) (cur : string) : result string :=
  match v with
  | JNull => ret cur
  | JString s => ret s
  | _ => inl (UnmarshalTypeError (kind v))
  end.

Definition decodeBool (v : value) (cur : bool) : result bool :=
  match v with
  | JNull => ret cur
  | JBool b => ret b
  | _ => inl (UnmarshalTypeError (kind v))
  end.

(** The elements of an array are stored one by one into the backing array
    of the slice, from index 0 on: element [i] is decoded into what the array
    holds at [i].  [old] is the backing array from the index of the next
    element on; past its end a fresh element is a zero value. *)
Fixpoint decodeArray {A : Type} (dec : value -> A -> result A) (zero : A)
  (l : list value) (old : list A) : result (list A) :=
  match l with
  | [] => ret []
  | v :: r =>
      x <- dec v (hd zero old) ;;
      xs <- decodeArray dec zero r (tl old) ;;
      ret (x :: xs)
  end.

(** A slice as the decoder finds it: [cur], nil or its elements, and
    [spare], the elements that the backing array holds beyond the length of
    the slice.  [reflect.Value.SetLen] cuts or extends the slice without
    touching the array, so a shorter array decoded into the slice moves
    elements to [spare], and a longer one decoded later finds them there.
    [null] makes the slice nil and [[]] makes it a new empty slice; both
    leave the old array behind.  The array only grows when the slice fills
    it, and then every element is copied. *)
Definition decodeSlice {A : Type} (dec : value -> A -> result A) (zero : A)
  (v : value) (cur : option (list A)) (spare : list A)
  : result (option (list A) * list A) :=
  match v with
  | JNull => ret (None, [])
  | JArray [] => ret (Some [], [])
  | JArray l =>
      let old := (match cur with Some xs => xs | None => [] end ++ spare)%list in
      xs <- decodeArray dec zero l old ;;
      ret (Some xs, skipn (List.length l) old)
  | _ => inl (UnmarshalTypeError (kind v))
  end.

(** ** Names

    A member is stored into the field whose name is the member's name or,
    when there is none, into the field whose name equals it under Unicode
    simple case folding, as [bytes.EqualFold] compares.  [foldName] maps the
    names that are equal in this sense to one string: an ASCII letter to its
    capital, a rune outside ASCII to the smallest rune of its class under
    [unicode.SimpleFold].

    The classes that hold an ASCII rune are those of the twenty-six letters,
    and two of them hold a third rune: U+017F (long s) goes with [S] and
    [s], U+212A (the Kelvin sign) with [K] and [k].  No other rune outside
    ASCII shares a class with an ASCII rune; the table of those classes is
    not copied here, and [foldRune] returns such a rune as it is.  The field
    names of this package are ASCII, and against an ASCII name the result of
    the comparison does not depend on that choice ([foldName_ascii]). *)

Definition foldRune (r : Z) : Z :=
  if (97 <=? r) && (r <=? 122) then r - 32
  else if r =? 0x17F then 83
  else if r =? 0x212A then 75
  else r.

(** [appendFoldedName], with the folding of the runes outside ASCII as
    [fold].  [skip] counts the bytes of the rune already read. *)
Fixpoint appendFoldedName (fold : Z -> Z) (skip : nat) (s : list ascii) : list ascii :=
  match s with
  | [] => []
  | c :: r =>
      match skip with
      | S k => appendFoldedName fold k r
      | O =>
          if code c <? 0x80 then
            (if (97 <=? code c) && (code c <=? 122) then char (code c - 32) else c)
              :: appendFoldedName fold O r
          else
            let '(rn, n) := utf8.DecodeRune (map code (firstn 4 s)) in
            (map char (utf8.EncodeRune (fold rn)) ++ appendFoldedName fold (Nat.pred n) r)%list
      end
  end.

Definition foldName (s : string) : string :=
  string_of_list_ascii (appendFoldedName foldRune O (list_ascii_of_string s)).

Fixpoint decodeMembers {A : Type} (set : string -> value -> A -> result A)
  (m : list (string * value)) (cur : A) : result A :=
  match m with
  | [] => ret cur
  | (k, v) :: r => x <- set (foldName k) v cur ;; decodeMembers set r x
  end.

(** An object is stored into a struct member by member, in the order of the
    text.  [set] receives the folded name of the member: it stores the
    member into the field whose folded name that is, and ignores a name the
    struct does not have.  No two fields of a struct of this package fold to
    the same name, so a field with the very name of the member, which Go
    looks for first, is the field found by the folded name. *)
Definition decodeStruct {A : Type} (set : string -> value -> A -> result A)
  (v : value) (cur : A) : result A :=
  match v with
  | JNull => ret cur
  | JObject m => decodeMembers set m cur
  | _ => inl (UnmarshalTypeError (kind v))
  end.

End json.

(** * client.go: the types

    One module per struct: the record, its zero value, and the JSON encoder
    or decoder that [encoding/json] derives from the field tags.  An encoder
    writes the fields in the order of the declaration, under the names of
    the tags.  A decoder's [setField] stores the member of a folded name
    into the field whose tag folds to that name. *)

Definition float64 : Type := float.

Bind Scope float_scope with float64.

(** A slice: [None] is nil. *)
Definition slice (A : Type) : Type := option (list A).

Definition elements {A : Type} (s : slice A) : list A :=
  match s with Some l => l | None => [] end.

Module Carton.

Record t : Type := {
  ID : string;
  Length : float64;
  Width : float64;
  Height : float64;
  Weight : float64;
  Quantity : Z;
  Fragile : bool;
  AllowRotation : bool
}.

Definition encode (c : t) : result json.value :=
  length <- json.encodeFloat64 (Length c) ;;
  width <- json.encodeFloat64 (Width c) ;;
  height <- json.encodeFloat64 (Height c) ;;
  weight <- json.encodeFloat64 (Weight c) ;;
  ret (json.JObject
         [("id", json.JString (ID c));
          ("length", length);
          ("width", width);
          ("height", height);
          ("weight", weight);
          ("quantity", json.encodeInt (Quantity c));
          ("fragile", json.JBool (Fragile c));
          ("allow_rotation", json.JBool (AllowRotation c))]).

End Carton.

Abbreviation Carton := Carton.t.

Module PalletConstraints.

Record t : Type := {
  MaxLength : float64;
  MaxWidth : float64;
  MaxHeight : float64;
  MaxWeight : float64
}.

Definition encode (p : t) : result json.value :=
  max_length <- json.encodeFloat64 (MaxLength p) ;;
  max_width <- json.encodeFloat64 (MaxWidth p) ;;
  max_height <- json.encodeFloat64 (MaxHeight p) ;;
  max_weight <- json.encodeFloat64 (MaxWeight p) ;;
  ret (json.JObject
         [("max_length", max_length);
          ("max_width", max_width);
          ("max_height", max_height);
          ("max_weight", max_weight)]).

End PalletConstraints.

Abbreviation PalletConstraints := PalletConstraints.t.

Module PackingOptions.

Record t : Type := {
  SupportPercentage : float64
}.

Definition encode (o : t) : result json.value :=
  support_percentage <- json.encodeFloat64 (SupportPercentage o) ;;
  ret (json.JObject [("support_percentage", support_percentage)]).

End PackingOptions.

Abbreviation PackingOptions := PackingOptions.t.

Module PackingRequest.

Record t : Type := {
  Cartons : slice Carton;
  PalletConstraints : PalletConstraints.t;
  PackingOptions : PackingOptions.t
}.

Definition encode (r : t) : result json.value :=
  cartons <- json.encodeSlice Carton.encode (Cartons r) ;;
  pallet_constraints <- PalletConstraints.encode (PalletConstraints r) ;;
  packing_options <- PackingOptions.encode (PackingOptions r) ;;
  ret (json.JObject
         [("cartons", cartons);
          ("pallet_constraints", pallet_constraints);
          ("packing_options", packing_options)]).

End PackingRequest.

Abbreviation PackingRequest := PackingRequest.t.

Module Point3D.

Record t : Type := {
  X : float64;
  Y : float64;
  Z : float64
}.

Definition zero : t := {| X := 0%float; Y := 0%float; Z := 0%float |}.

Definition setField (name : string) (v : json.value) (p : t) : result t :=
  if (name =? json.foldName "x")%string then
    x <- json.decodeFloat64 v (X p) ;; ret {| X := x; Y := Y p; Z := Z p |}
  else if (name =? json.foldName "y")%string then
    y <- json.decodeFloat64 v (Y p) ;; ret {| X := X p; Y := y; Z := Z p |}
  else if (name =? json.foldName "z")%string then
    z <- json.decodeFloat64 v (Z p) ;; ret {| X := X p; Y := Y p; Z := z |}
  else ret p.

Definition decode : json.value -> t -> result t := json.decodeStruct setField.

Definition encode (p : t) : result json.value :=
  x <- json.encodeFloat64 (X p) ;;
  y <- json.encodeFloat64 (Y p) ;;
  z <- json.encodeFloat64 (Z p) ;;
  ret (json.JObject [("x", x); ("y", y); ("z", z)]).

End Point3D.

Abbreviation Point3D := Point3D.t.

Module Dimensions.

Record t : Type := {
  Length : float64;
  Width : float64;
  Height : float64
}.

Definition zero : t := {| Length := 0%float; Width := 0%float; Height := 0%float |}.

Definition setField (name : string) (v : json.value) (d : t) : result t :=
  if (name =? json.foldName "length")%string then
    x <- json.decodeFloat64 v (Length d) ;;
    ret {| Length := x; Width := Width d; Height := Height d |}
  else if (name =? json.foldName "width")%string then
    x <- json.decodeFloat64 v (Width d) ;;
    ret {| Length := Length d; Width := x; Height := Height d |}
  else if (name =? json.foldName "height")%string then
    x <- json.decodeFloat64 v (Height d) ;;
    ret {| Length := Length d; Width := Width d; Height := x |}
  else ret d.

Definition decode : json.value -> t -> result t := json.decodeStruct setField.

Definition encode (d : t) : result json.value :=
  length <- json.encodeFloat64 (Length d) ;;
  width <- json.encodeFloat64 (Width d) ;;
  height <- json.encodeFloat64 (Height d) ;;
  ret (json.JObject [("length", length); ("width", width); ("height", height)]).

End Dimensions.

Abbreviation Dimensions := Dimensions.t.

Module PlacedCarton.

Record t : Type := {
  CartonID : string;
  Position : Point3D;
  Dimensions : Dimensions.t;
  Orientation : string;
  Weight : float64
}.

Definition zero : t :=
  {| CartonID := ""; Position := Point3D.zero; Dimensions := Dimensions.zero;
     Orientation := ""; Weight := 0%float |}.

Definition setField (name : string) (v : json.value) (p : t) : result t :=
  if (name =? json.foldName "carton_id")%string then
    x <- json.decodeString v (CartonID p) ;;
    ret {| CartonID := x; Position := Position p; Dimensions := Dimensions p;
           Orientation := Orientation p; Weight := Weight p |}
  else if (name =? json.foldName "position")%string then
    x <- Point3D.decode v (Position p) ;;
    ret {| CartonID := CartonID p; Position := x; Dimensions := Dimensions p;
           Orientation := Orientation p; Weight := Weight p |}
  else if (name =? json.foldName "dimensions")%string then
    x <- Dimensions.decode v (Dimensions p) ;;
    ret {| CartonID := CartonID p; Position := Position p; Dimensions := x;
           Orientation := Orientation p; Weight := Weight p |}
  else if (name =? json.foldName "orientation")%string then
    x <- json.decodeString v (Orientation p) ;;
    ret {| CartonID := CartonID p; Position := Position p; Dimensions := Dimensions p;
           Orientation := x; Weight := Weight p |}
  else if (name =? json.foldName "weight")%string then
    x <- json.decodeFloat64 v (Weight p) ;;
    ret {| CartonID := CartonID p; Position := Position p; Dimensions := Dimensions p;
           Orientation := Orientation p; Weight := x |}
  else ret p.

Definition decode : json.value -> t -> result t := json.decodeStruct setField.

Definition encode (p : t) : result json.value :=
  position <- Point3D.encode (Position p) ;;
  dimensions <- Dimensions.encode (Dimensions p) ;;
  weight <- json.encodeFloat64 (Weight p) ;;
  ret (json.JObject
         [("carton_id", json.JString (CartonID p));
          ("position", position);
          ("dimensions", dimensions);
          ("orientation", json.JString (Orientation p));
          ("weight", weight)]).

End PlacedCarton.

Abbreviation PlacedCarton := PlacedCarton.t.

Module Pallet.

Record t : Type := {
  PalletID : Z;
  TotalWeight : float64;
  TotalHeight : float64;
  UtilizationPercentage : float64;
  Cartons : slice PlacedCarton;
  CenterOfGravity : Point3D
}.

Definition zero : t :=
  {| PalletID := 0; TotalWeight := 0%float; TotalHeight := 0%float;
     UtilizationPercentage := 0%float; Cartons := None;
     CenterOfGravity := Point3D.zero |}.

(** The pallet with one field replaced. *)
Definition withPalletID (x : Z) (p : t) : t :=
  {| PalletID := x; TotalWeight := TotalWeight p; TotalHeight := TotalHeight p;
     UtilizationPercentage := UtilizationPercentage p; Cartons := Cartons p;
     CenterOfGravity := CenterOfGravity p |}.

Definition withTotalWeight (x : float64) (p : t) : t :=
  {| PalletID := PalletID p; TotalWeight := x; TotalHeight := TotalHeight p;
     UtilizationPercentage := UtilizationPercentage p; Cartons := Cartons p;
     CenterOfGravity := CenterOfGravity p |}.

Definition withTotalHeight (x : float64) (p : t) : t :=
  {| PalletID := PalletID p; TotalWeight := TotalWeight p; TotalHeight := x;
     UtilizationPercentage := UtilizationPercentage p; Cartons := Cartons p;
     CenterOfGravity := CenterOfGravity p |}.

Definition withUtilizationPercentage (x : float64) (p : t) : t :=
  {| PalletID := PalletID p; TotalWeight := TotalWeight p; TotalHeight := TotalHeight p;
     UtilizationPercentage := x; Cartons := Cartons p;
     CenterOfGravity := CenterOfGravity p |}.

Definition withCartons (x : slice PlacedCarton) (p : t) : t :=
  {| PalletID := PalletID p; TotalWeight := TotalWeight p; TotalHeight := TotalHeight p;
     UtilizationPercentage := UtilizationPercentage p; Cartons := x;
     CenterOfGravity := CenterOfGravity p |}.

Definition withCenterOfGravity (x : Point3D) (p : t) : t :=
  {| PalletID := PalletID p; TotalWeight := TotalWeight p; TotalHeight := TotalHeight p;
     UtilizationPercentage := UtilizationPercentage p; Cartons := Cartons p;
     CenterOfGravity := x |}.

(** A pallet as the decoder finds it in memory: the value, and the placed
    cartons that the backing array of [Cartons] holds beyond its length. *)
Record mem : Type := {
  value : t;
  spareCartons : list PlacedCarton
}.

(** A pallet whose slice fills its array. *)
Definition store (p : t) : mem := {| value := p; spareCartons := [] |}.

(** The value changed by [f], the array beyond the slice as it was. *)
Definition update (f : t -> t) (p : mem) : mem :=
  {| value := f (value p); spareCartons := spareCartons p |}.

Definition setField (name : string) (v : json.value) (p : mem) : result mem :=
  if (name =? json.foldName "pallet_id")%string then
    x <- json.decodeInt v (PalletID (value p)) ;; ret (update (withPalletID x) p)
  else if (name =? json.foldName "total_weight")%string then
    x <- json.decodeFloat64 v (TotalWeight (value p)) ;; ret (update (withTotalWeight x) p)
  else if (name =? json.foldName "total_height")%string then
    x <- json.decodeFloat64 v (TotalHeight (value p)) ;; ret (update (withTotalHeight x) p)
  else if (name =? json.foldName "utilization_percentage")%string then
    x <- json.decodeFloat64 v (UtilizationPercentage (value p)) ;;
    ret (update (withUtilizationPercentage x) p)
  else if (name =? json.foldName "cartons")%string then
    x <- json.decodeSlice PlacedCarton.decode PlacedCarton.zero v
           (Cartons (value p)) (spareCartons p) ;;
    ret {| value := withCartons (fst x) (value p); spareCartons := snd x |}
  else if (name =? json.foldName "center_of_gravity")%string then
    x <- Point3D.decode v (CenterOfGravity (value p)) ;;
    ret (update (withCenterOfGravity x) p)
  else ret p.

Definition decode : json.value -> mem -> result mem := json.decodeStruct setField.

Definition encode (p : t) : result json.value :=
  total_weight <- json.encodeFloat64 (TotalWeight p) ;;
  total_height <- json.encodeFloat64 (TotalHeight p) ;;
  utilization_percentage <- json.encodeFloat64 (UtilizationPercentage p) ;;
  cartons <- json.encodeSlice PlacedCarton.encode (Cartons p) ;;
  center_of_gravity <- Point3D.encode (CenterOfGravity p) ;;
  ret (json.JObject
         [("pallet_id", json.encodeInt (PalletID p));
          ("total_weight", total_weight);
          ("total_height", total_height);
          ("utilization_percentage", utilization_percentage);
          ("cartons", cartons);
          ("center_of_gravity", center_of_gravity)]).

End Pallet.

Abbreviation Pallet := Pallet.t.

Module PackingSummary.

Record t : Type := {
  TotalPallets : Z;
  TotalCartonsPacked : Z;
  AverageUtilization : float64;
  ComputationTimeMs : Z
}.

Definition zero : t :=
  {| TotalPallets := 0; TotalCartonsPacked := 0; AverageUtilization := 0%float;
     ComputationTimeMs := 0 |}.

Definition setField (name : string) (v : json.value) (s : t) : result t :=
  if (name =? json.foldName "total_pallets")%string then
    x <- json.decodeInt v (TotalPallets s) ;;
    ret {| TotalPallets := x; TotalCartonsPacked := TotalCartonsPacked s;
           AverageUtilization := AverageUtilization s;
           ComputationTimeMs := ComputationTimeMs s |}
  else if (name =? json.foldName "total_cartons_packed")%string then
    x <- json.decodeInt v (TotalCartonsPacked s) ;;
    ret {| TotalPallets := TotalPallets s; TotalCartonsPacked := x;
           AverageUtilization := AverageUtilization s;
           ComputationTimeMs := ComputationTimeMs s |}
  else if (name =? json.foldName "average_utilization")%string then
    x <- json.decodeFloat64 v (AverageUtilization s) ;;
    ret {| TotalPallets := TotalPallets s; TotalCartonsPacked := TotalCartonsPacked s;
           AverageUtilization := x; ComputationTimeMs := ComputationTimeMs s |}
  else if (name =? json.foldName "computation_time_ms")%string then
    x <- json.decodeInt v (ComputationTimeMs s) ;;
    ret {| TotalPallets := TotalPallets s; TotalCartonsPacked := TotalCartonsPacked s;
           AverageUtilization := AverageUtilization s; ComputationTimeMs := x |}
  else ret s.

Definition decode : json.value -> t -> result t := json.decodeStruct setField.

Definition encode (s : t) : result json.value :=
  average_utilization <- json.encodeFloat64 (AverageUtilization s) ;;
  ret (json.JObject
         [("total_pallets", json.encodeInt (TotalPallets s));
          ("total_cartons_packed", json.encodeInt (TotalCartonsPacked s));
          ("average_utilization", average_utilization);
          ("computation_time_ms", json.encodeInt (ComputationTimeMs s))]).

End PackingSummary.

Abbreviation PackingSummary := PackingSummary.t.

Module PackingResponse.

Record t : Type := {
  Pallets : slice Pallet;
  Summary : PackingSummary;
  Error : string
}.

Definition zero : t :=
  {| Pallets := None; Summary := PackingSummary.zero; Error := "" |}.

(** A response as the decoder finds it in memory: the pallets with what
    their arrays hold, the pallets that the backing array of [Pallets] holds
    beyond its length, and the other fields. *)
Record mem : Type := {
  memPallets : slice Pallet.mem;
  sparePallets : list Pallet.mem;
  memSummary : PackingSummary;
  memError : string
}.

(** The Go value in that memory. *)
Definition value (r : mem) : t :=
  {| Pallets := option_map (map Pallet.value) (memPallets r);
     Summary := memSummary r;
     Error := memError r |}.

(** A response whose slices fill their arrays, as the zero value does. *)
Definition store (r : t) : mem :=
  {| memPallets := option_map (map Pallet.store) (Pallets r);
     sparePallets := [];
     memSummary := Summary r;
     memError := Error r |}.

Definition setField (name : string) (v : json.value) (r : mem) : result mem :=
  if (name =? json.foldName "pallets")%string then
    x <- json.decodeSlice Pallet.decode (Pallet.store Pallet.zero) v
           (memPallets r) (sparePallets r) ;;
    ret {| memPallets := fst x; sparePallets := snd x;
           memSummary := memSummary r; memError := memError r |}
  else if (name =? json.foldName "summary")%string then
    x <- PackingSummary.decode v (memSummary r) ;;
    ret {| memPallets := memPallets r; sparePallets := sparePallets r;
           memSummary := x; memError := memError r |}
  else if (name =? json.foldName "error")%string then
    x <- json.decodeString v (memError r) ;;
    ret {| memPallets := memPallets r; sparePallets := sparePallets r;
           memSummary := memSummary r; memError := x |}
  else ret r.

Definition decode : json.value -> mem -> result mem := json.decodeStruct setField.

(** The [error] member is left out when the string is empty
    ([omitempty]). *)
Definition encode (r : t) : result json.value :=
  pallets <- json.encodeSlice Pallet.encode (Pallets r) ;;
  summary <- PackingSummary.encode (Summary r) ;;
  ret (json.JObject
         ([("pallets", pallets); ("summary", summary)]
          ++ (if (Error r =? "")%string then [] else [("error", json.JString (Error r))]))).

End PackingResponse.

Abbreviation PackingResponse := PackingResponse.t.

(** [json.Marshal(request)] for [request *PackingRequest]: a nil pointer is
    [null]. *)
Definition Marshal (request : option PackingRequest) : result string :=
  match request with
  | None => ret "null"
  | Some r => v <- PackingRequest.encode r ;; ret (json.render v)
  end.

(** [json.Unmarshal(data, &response)]: the text is checked first, then
    stored into [response], whose slices fill their arrays. *)
Definition Unmarshal (data : string) (response : PackingResponse)
  : result PackingResponse :=
  match json.parse data with
  | None => inl SyntaxError
  | Some v =>
      r <- PackingResponse.decode v (PackingResponse.store response) ;;
      ret (PackingResponse.value r)
  end.

(** * context and net/http

    A context is what [ctx.Err()] answers while the exchange runs: nothing,
    or [Canceled] or [DeadlineExceeded] once the context is done. *)

Module context.

Record Context : Type := { Err : option error }.

Definition Background : Context := {| Err := None |}.

End context.

Module http.

Definition Header : Type := list (string * string).

(** [Header.Set]: the value replaces what the key held. *)
Definition Header_Set (key val : string) (h : Header) : Header :=
  (filter (fun kv => negb (fst kv =? key)%string) h ++ [(key, val)])%list.

Record Request : Type := {
  Method : string;
  URL : string;
  Headers : Header;
  Body : string;
  Ctx : context.Context
}.

(** A response as [Pack] uses it: the status code, and what
    [io.ReadAll(resp.Body)] returns. *)
Record Response : Type := {
  StatusCode : Z;
  ReadBody : result string
}.

Definition StatusOK : Z := 200.

(** The method [Do] of [http.Client]: the response, or the error of a failed
    exchange. *)
Definition Client : Type := Request -> result Response.


End http.

(** * client.go: the client *)

Module Client.

Record t : Type := {
  baseURL : string;
  httpClient : http.Client
}.

End Client.

Abbreviation Client := Client.t.

(** [New] builds the same struct around a fresh [http.Client] with a
    timeout of 120 seconds, whose answers are the network's; the model has
    the constructor that is given the client. *)
Definition NewWithHTTPClient (baseURL : string) (httpClient : http.Client) : Client :=
  {| Client.baseURL := baseURL; Client.httpClient := httpClient |}.

Section Pack.

(** [net/url]: the error of [url.Parse] on a URL it refuses.  The parser is
    not part of the package; [Pack] only passes its verdict on. *)
Variable url_Parse : string -> option error.

(** [http.NewRequestWithContext] for a valid method and a non-nil context:
    it fails when the URL does not parse. *)
Definition NewRequestWithContext (ctx : context.Context) (method url body : string)
  : result http.Request :=
  match url_Parse url with
  | Some err => inl err
  | None =>
      inr {| http.Method := method; http.URL := url; http.Headers := [];
             http.Body := body; http.Ctx := ctx |}
  end.

Definition set_header (key val : string) (req : http.Request) : http.Request :=
  {| http.Method := http.Method req; http.URL := http.URL req;
     http.Headers := http.Header_Set key val (http.Headers req);
     http.Body := http.Body req; http.Ctx := http.Ctx req |}.

(** [Pack], lines 174 to 183: the request that is handed to the HTTP client,
    or the error [Pack] returns before any exchange. *)
Definition Pack_request (c : Client) (ctx : context.Context)
  (request : option PackingRequest) : result http.Request :=
  match Marshal request with
  | inl err => inl (wrapError "failed to marshal request: " err)
  | inr jsonData =>
      match NewRequestWithContext ctx "POST" (Client.baseURL c +++ "/api/v1/pack") jsonData with
      | inl err => inl (wrapError "failed to create request: " err)
      | inr req => inr (set_header "Content-Type" "application/json" req)
      end
  end.

(** [Pack], lines 191 to 208: what [Pack] returns for a response. *)
Definition Pack_response (resp : http.Response)
  : option PackingResponse * option error :=
  match http.ReadBody resp with
  | inl err => (None, Some (wrapError "failed to read response: " err))
  | inr body =>
      match Unmarshal body PackingResponse.zero with
      | inl err => (None, Some (wrapError "failed to parse response: " err))
      | inr response =>
          if negb (http.StatusCode resp =? http.StatusOK) then
            if negb (PackingResponse.Error response =? "")%string then
              (None, Some (errorString
                             ("API error (status " +++ strconv.FormatInt (http.StatusCode resp)
                              +++ "): " +++ PackingResponse.Error response)))
            else
              (None, Some (errorString
                             ("API returned status " +++ strconv.FormatInt (http.StatusCode resp)
                              +++ ": " +++ body)))
          else (Some response, None)
      end
  end.

(** [Pack]: the pair of a pointer to a [PackingResponse] and an error,
    [None] for nil. *)
Definition Pack (c : Client) (ctx : context.Context) (request : option PackingRequest)
  : option PackingResponse * option error :=
  match Pack_request c ctx request with
  | inl err => (None, Some err)
  | inr req =>
      match Client.httpClient c req with
      | inl err => (None, Some (wrapError "failed to send request: " err))
      | inr resp => Pack_response resp
      end
  end.

End Pack.

(** * client.go: presets and unit conversions *)

Definition StandardPallet : PalletConstraints :=
  {| PalletConstraints.MaxLength := 1016.0%float;
     PalletConstraints.MaxWidth := 1828.8%float;
     PalletConstraints.MaxHeight := 1219.2%float;
     PalletConstraints.MaxWeight := 680388.0%float |}.

Definition StandardPallet4048 : PalletConstraints :=
  {| PalletConstraints.MaxLength := 1016.0%float;
     PalletConstraints.MaxWidth := 1219.2%float;
     PalletConstraints.MaxHeight := 1219.2%float;
     PalletConstraints.MaxWeight := 680388.0%float |}.

Definition InchesToMM (inches : float64) : float64 := (inches * 25.4)%float.

Definition PoundsToGrams (pounds : float64) : float64 := (pounds * 453.592)%float.

Definition MMToInches (mm : float64) : float64 := (mm / 25.4)%float.

Definition GramsToPounds (grams : float64) : float64 := (grams / 453.592)%float.

(** The same four functions in exact arithmetic, on the rationals: the
    constants are the decimals of the source, the operations lose
    nothing. *)
Module Exact.

Definition InchesToMM (inches : Q) : Q := (inches * (254 # 10))%Q.

Definition PoundsToGrams (pounds : Q) : Q := (pounds * (453592 # 1000))%Q.

Definition MMToInches (mm : Q) : Q := (mm / (254 # 10))%Q.

Definition GramsToPounds (grams : Q) : Q := (grams / (453592 # 1000))%Q.

End Exact.

(** The binary64 nearest to a rational (ties to even): what the compiler
    makes of a decimal constant. *)
Definition float64_of_Q (q : Q) : float64 :=
  match Qnum q with
  | Z0 => 0%float
  | Zpos n => SF2Prim (SFdiv prec emax (S754_finite false n 0) (S754_finite false (Qden q) 0))
  | Zneg n => SF2Prim (SFdiv prec emax (S754_finite true n 0) (S754_finite false (Qden q) 0))
  end.

(** * Test doubles

    The requests, responses and HTTP clients the examples run on: those of
    [client_test.go], and servers that answer with an error. *)

(** A JSON text is written here with an apostrophe for each double quote. *)
Definition text (s : string) : string :=
  string_of_list_ascii
    (map (fun c => if Ascii.eqb c "'"%char then dquote else c) (list_ascii_of_string s)).

(** A [net/url] that accepts every URL. *)
Definition accept_url (_ : string) : option error := None.

(** The carton and the request of [TestPack]. *)
Definition carton_TestPack : Carton :=
  {| Carton.ID := "BOX001";
     Carton.Length := 609.6;
     Carton.Width := 457.2;
     Carton.Height := 406.4;
     Carton.Weight := 18143.68;
     Carton.Quantity := 1;
     Carton.Fragile := false;
     Carton.AllowRotation := true |}.

Definition request_with (support : float64) : PackingRequest :=
  {| PackingRequest.Cartons := Some [carton_TestPack];
     PackingRequest.PalletConstraints := StandardPallet;
     PackingRequest.PackingOptions := {| PackingOptions.SupportPercentage := support |} |}.

Definition request_TestPack : PackingRequest := request_with 80.0.

(** The response the mock server of [TestPack] sends. *)
Definition pallet_TestPack : Pallet :=
  {| Pallet.PalletID := 1;
     Pallet.TotalWeight := 18143.68;
     Pallet.TotalHeight := 406.4;
     Pallet.UtilizationPercentage := 95.0;
     Pallet.Cartons :=
       Some [ {| PlacedCarton.CartonID := "BOX001_1";
                 PlacedCarton.Position := {| Point3D.X := 0; Point3D.Y := 0; Point3D.Z := 0 |};
                 PlacedCarton.Dimensions :=
                   {| Dimensions.Length := 609.6; Dimensions.Width := 457.2;
                      Dimensions.Height := 406.4 |};
                 PlacedCarton.Orientation := "original";
                 PlacedCarton.Weight := 18143.68 |} ];
     Pallet.CenterOfGravity :=
       {| Point3D.X := 304.8; Point3D.Y := 228.6; Point3D.Z := 203.2 |} |}.

Definition response_TestPack : PackingResponse :=
  {| PackingResponse.Pallets := Some [pallet_TestPack];
     PackingResponse.Summary :=
       {| PackingSummary.TotalPallets := 1;
          PackingSummary.TotalCartonsPacked := 1;
          PackingSummary.AverageUtilization := 95.0;
          PackingSummary.ComputationTimeMs := 5 |};
     PackingResponse.Error := "" |}.

(** [json.NewEncoder(w).Encode(response)]: the text and a line feed. *)
Definition Encode (response : PackingResponse) : string :=
  match PackingResponse.encode response with
  | inr v => json.render v +++ String (char 10) ""
  | inl _ => ""
  end.

(** A server that answers every request with a status and a body. *)
Definition server (status : Z) (body : string) : http.Client :=
  fun _ => inr {| http.StatusCode := status; http.ReadBody := inr body |}.

Definition client_TestPack : Client :=
  NewWithHTTPClient "http://127.0.0.1:8080" (server 200 (Encode response_TestPack)).

(** A server that packed one pallet and could not place another carton: the
    pallet and the error travel in the same body. *)
Definition response_partial : PackingResponse :=
  {| PackingResponse.Pallets := Some [pallet_TestPack];
     PackingResponse.Summary := PackingResponse.Summary response_TestPack;
     PackingResponse.Error := "carton BIG1 exceeds pallet bounds" |}.

Definition client_partial (status : Z) : Client :=
  NewWithHTTPClient "http://127.0.0.1:8080" (server status (Encode response_partial)).

(** A gateway that answers with an HTML page. *)
Definition client_gateway : Client :=
  NewWithHTTPClient "http://127.0.0.1:8080" (server 502 "<html>Bad Gateway</html>").




(** The names of the members of an object. *)
Definition field_names (v : json.value) : list string :=
  match v with
  | json.JObject m => map fst m
  | _ => []
  end.

(** The member names of a carton and of a pallet, from the field tags. *)
Definition Carton_names : list string :=
  ["id"; "length"; "width"; "height"; "weight"; "quantity"; "fragile"; "allow_rotation"].

Definition Pallet_names : list string :=
  ["pallet_id"; "total_weight"; "total_height"; "utilization_percentage"; "cartons";
   "center_of_gravity"].

(** A member whose name is one of [names] under simple case folding. *)
Definition named (names : list string) (kv : string * json.value) : bool :=
  existsb (fun tag => (json.foldName (fst kv) =? json.foldName tag)%string) names.

(** A float64 that JSON can carry. *)
Definition finite (f : float64) : bool :=
  negb (PrimFloat.is_nan f || PrimFloat.is_infinity f).

Definition Carton_finite (c : Carton) : bool :=
  finite (Carton.Length c) && finite (Carton.Width c)
  && finite (Carton.Height c) && finite (Carton.Weight c).

Definition PalletConstraints_finite (p : PalletConstraints) : bool :=
  finite (PalletConstraints.MaxLength p) && finite (PalletConstraints.MaxWidth p)
  && finite (PalletConstraints.MaxHeight p) && finite (PalletConstraints.MaxWeight p).

Definition PackingRequest_finite (r : PackingRequest) : bool :=
  forallb Carton_finite (elements (PackingRequest.Cartons r))
  && PalletConstraints_finite (PackingRequest.PalletConstraints r)
  && finite (PackingOptions.SupportPercentage (PackingRequest.PackingOptions r)).

(** [TestConversions]: each result is within 0.01 of the expected value. *)
Definition within (result expected : float64) : bool :=
  negb (PrimFloat.ltb result (expected - 0.01)%float
        || PrimFloat.ltb (expected + 0.01)%float result).

(** The body of the request [Pack] hands to the HTTP client, if it gets
    that far. *)
Definition sent_body (url_Parse : string -> option error) (c : Client)
  (ctx : context.Context) (request : option PackingRequest) : option string :=
  match Pack_request url_Parse c ctx request with
  | inr req => Some (http.Body req)
  | inl _ => None
  end.

Definition array_elements (v : json.value) : list json.value :=
  match v with
  | json.JArray l => l
  | _ => []
  end.

(** * client.go: the types of Health and Metrics *)

(** [strconv.ParseUint(s, 10, 64)] on a JSON number literal: digits only, and
    a value below [2 ^ 64]. *)
Definition ParseUint (s : string) : option Z :=
  let ds := list_ascii_of_string s in
  match ds with
  | [] => None
  | _ :: _ =>
      if forallb is_digit ds then
        let v := digits_value ds in
        if v <? 2 ^ 64 then Some v else None
      else None
  end.

(** The decoder of a [uint32] field: the literal must be an unsigned integer
    below [2 ^ 32]. *)
Definition decodeUint32 (v : json.value) (cur : Z) : result Z :=
  match v with
  | json.JNull => ret cur
  | json.JNumber lit =>
      match ParseUint lit with
      | Some n =>
          if n <? 2 ^ 32 then ret n
          else inl (UnmarshalTypeError ("number " +++ lit))
      | None => inl (UnmarshalTypeError ("number " +++ lit))
      end
  | _ => inl (UnmarshalTypeError (json.kind v))
  end.

Module HealthResponse.

Record t : Type := {
  Status : string
}.

Definition zero : t := {| Status := "" |}.

Definition setField (name : string) (v : json.value) (h : t) : result t :=
  if (name =? json.foldName "status")%string then
    x <- json.decodeString v (Status h) ;; ret {| Status := x |}
  else ret h.

Definition decode : json.value -> t -> result t := json.decodeStruct setField.

Definition encode (h : t) : result json.value :=
  ret (json.JObject [("status", json.JString (Status h))]).

End HealthResponse.

Abbreviation HealthResponse := HealthResponse.t.

Module MetricsResponse.

Record t : Type := {
  TotalRequests : Z;
  TotalCartons : Z;
  TotalPallets : Z;
  AverageTimeMs : float64;
  AverageUtilPct : float64;
  SuccessRate : float64;
  UptimeSeconds : Z;
  MemoryAllocMB : float64;
  MemorySysMB : float64;
  NumGoroutines : Z;
  NumGC : Z;
  LastGCPauseMs : float64;
  GoVersion : string;
  BuildVersion : string;
  BuildTime : string
}.

Definition zero : t :=
  {| TotalRequests := 0;
     TotalCartons := 0;
     TotalPallets := 0;
     AverageTimeMs := 0%float;
     AverageUtilPct := 0%float;
     SuccessRate := 0%float;
     UptimeSeconds := 0;
     MemoryAllocMB := 0%float;
     MemorySysMB := 0%float;
     NumGoroutines := 0;
     NumGC := 0;
     LastGCPauseMs := 0%float;
     GoVersion := "";
     BuildVersion := "";
     BuildTime := "" |}.

(** The record with one field replaced. *)
Definition withTotalRequests (x : Z) (m : t) : t :=
  {| TotalRequests := x;
     TotalCartons := TotalCartons m;
     TotalPallets := TotalPallets m;
     AverageTimeMs := AverageTimeMs m;
     AverageUtilPct := AverageUtilPct m;
     SuccessRate := SuccessRate m;
     UptimeSeconds := UptimeSeconds m;
     MemoryAllocMB := MemoryAllocMB m;
     MemorySysMB := MemorySysMB m;
     NumGoroutines := NumGoroutines m;
     NumGC := NumGC m;
     LastGCPauseMs := LastGCPauseMs m;
     GoVersion := GoVersion m;
     BuildVersion := BuildVersion m;
     BuildTime := BuildTime m |}.

Definition withTotalCartons (x : Z) (m : t) : t :=
  {| TotalRequests := TotalRequests m;
     TotalCartons := x;
     TotalPallets := TotalPallets m;
     AverageTimeMs := AverageTimeMs m;
     AverageUtilPct := AverageUtilPct m;
     SuccessRate := SuccessRate m;
     UptimeSeconds := UptimeSeconds m;
     MemoryAllocMB := MemoryAllocMB m;
     MemorySysMB := MemorySysMB m;
     NumGoroutines := NumGoroutines m;
     NumGC := NumGC m;
     LastGCPauseMs := LastGCPauseMs m;
     GoVersion := GoVersion m;
     BuildVersion := BuildVersion m;
     BuildTime := BuildTime m |}.

Definition withTotalPallets (x : Z) (m : t) : t :=
  {| TotalRequests := TotalRequests m;
     TotalCartons := TotalCartons m;
     TotalPallets := x;
     AverageTimeMs := AverageTimeMs m;
     AverageUtilPct := AverageUtilPct m;
     SuccessRate := SuccessRate m;
     UptimeSeconds := UptimeSeconds m;
     MemoryAllocMB := MemoryAllocMB m;
     MemorySysMB := MemorySysMB m;
     NumGoroutines := NumGoroutines m;
     NumGC := NumGC m;
     LastGCPauseMs := LastGCPauseMs m;
     GoVersion := GoVersion m;
     BuildVersion := BuildVersion m;
     BuildTime := BuildTime m |}.

Definition withAverageTimeMs (x : float64) (m : t) : t :=
  {| TotalRequests := TotalRequests m;
     TotalCartons := TotalCartons m;
     TotalPallets := TotalPallets m;
     AverageTimeMs := x;
     AverageUtilPct := AverageUtilPct m;
     SuccessRate := SuccessRate m;
     UptimeSeconds := UptimeSeconds m;
     MemoryAllocMB := MemoryAllocMB m;
     MemorySysMB := MemorySysMB m;
     NumGoroutines := NumGoroutines m;
     NumGC := NumGC m;
     LastGCPauseMs := LastGCPauseMs m;
     GoVersion := GoVersion m;
     BuildVersion := BuildVersion m;
     BuildTime := BuildTime m |}.

Definition withAverageUtilPct (x : float64) (m : t) : t :=
  {| TotalRequests := TotalRequests m;
     TotalCartons := TotalCartons m;
     TotalPallets := TotalPallets m;
     AverageTimeMs := AverageTimeMs m;
     AverageUtilPct := x;
     SuccessRate := SuccessRate m;
     UptimeSeconds := UptimeSeconds m;
     MemoryAllocMB := MemoryAllocMB m;
     MemorySysMB := MemorySysMB m;
     NumGoroutines := NumGoroutines m;
     NumGC := NumGC m;
     LastGCPauseMs := LastGCPauseMs m;
     GoVersion := GoVersion m;
     BuildVersion := BuildVersion m;
     BuildTime := BuildTime m |}.

Definition withSuccessRate (x : float64) (m : t) : t :=
  {| TotalRequests := TotalRequests m;
     TotalCartons := TotalCartons m;
     TotalPallets := TotalPallets m;
     AverageTimeMs := AverageTimeMs m;
     AverageUtilPct := AverageUtilPct m;
     SuccessRate := x;
     UptimeSeconds := UptimeSeconds m;
     MemoryAllocMB := MemoryAllocMB m;
     MemorySysMB := MemorySysMB m;
     NumGoroutines := NumGoroutines m;
     NumGC := NumGC m;
     LastGCPauseMs := LastGCPauseMs m;
     GoVersion := GoVersion m;
     BuildVersion := BuildVersion m;
     BuildTime := BuildTime m |}.

Definition withUptimeSeconds (x : Z) (m : t) : t :=
  {| TotalRequests := TotalRequests m;
     TotalCartons := TotalCartons m;
     TotalPallets := TotalPallets m;
     AverageTimeMs := AverageTimeMs m;
     AverageUtilPct := AverageUtilPct m;
     SuccessRate := SuccessRate m;
     UptimeSeconds := x;
     MemoryAllocMB := MemoryAllocMB m;
     MemorySysMB := MemorySysMB m;
     NumGoroutines := NumGoroutines m;
     NumGC := NumGC m;
     LastGCPauseMs := LastGCPauseMs m;
     GoVersion := GoVersion m;
     BuildVersion := BuildVersion m;
     BuildTime := BuildTime m |}.

Definition withMemoryAllocMB (x : float64) (m : t) : t :=
  {| TotalRequests := TotalRequests m;
     TotalCartons := TotalCartons m;
     TotalPallets := TotalPallets m;
     AverageTimeMs := AverageTimeMs m;
     AverageUtilPct := AverageUtilPct m;
     SuccessRate := SuccessRate m;
     UptimeSeconds := UptimeSeconds m;
     MemoryAllocMB := x;
     MemorySysMB := MemorySysMB m;
     NumGoroutines := NumGoroutines m;
     NumGC := NumGC m;
     LastGCPauseMs := LastGCPauseMs m;
     GoVersion := GoVersion m;
     BuildVersion := BuildVersion m;
     BuildTime := BuildTime m |}.

Definition withMemorySysMB (x : float64) (m : t) : t :=
  {| TotalRequests := TotalRequests m;
     TotalCartons := TotalCartons m;
     TotalPallets := TotalPallets m;
     AverageTimeMs := AverageTimeMs m;
     AverageUtilPct := AverageUtilPct m;
     SuccessRate := SuccessRate m;
     UptimeSeconds := UptimeSeconds m;
     MemoryAllocMB := MemoryAllocMB m;
     MemorySysMB := x;
     NumGoroutines := NumGoroutines m;
     NumGC := NumGC m;
     LastGCPauseMs := LastGCPauseMs m;
     GoVersion := GoVersion m;
     BuildVersion := BuildVersion m;
     BuildTime := BuildTime m |}.

Definition withNumGoroutines (x : Z) (m : t) : t :=
  {| TotalRequests := TotalRequests m;
     TotalCartons := TotalCartons m;
     TotalPallets := TotalPallets m;
     AverageTimeMs := AverageTimeMs m;
     AverageUtilPct := AverageUtilPct m;
     SuccessRate := SuccessRate m;
     UptimeSeconds := UptimeSeconds m;
     MemoryAllocMB := MemoryAllocMB m;
     MemorySysMB := MemorySysMB m;
     NumGoroutines := x;
     NumGC := NumGC m;
     LastGCPauseMs := LastGCPauseMs m;
     GoVersion := GoVersion m;
     BuildVersion := BuildVersion m;
     BuildTime := BuildTime m |}.

Definition withNumGC (x : Z) (m : t) : t :=
  {| TotalRequests := TotalRequests m;
     TotalCartons := TotalCartons m;
     TotalPallets := TotalPallets m;
     AverageTimeMs := AverageTimeMs m;
     AverageUtilPct := AverageUtilPct m;
     SuccessRate := SuccessRate m;
     UptimeSeconds := UptimeSeconds m;
     MemoryAllocMB := MemoryAllocMB m;
     MemorySysMB := MemorySysMB m;
     NumGoroutines := NumGoroutines m;
     NumGC := x;
     LastGCPauseMs := LastGCPauseMs m;
     GoVersion := GoVersion m;
     BuildVersion := BuildVersion m;
     BuildTime := BuildTime m |}.

Definition withLastGCPauseMs (x : float64) (m : t) : t :=
  {| TotalRequests := TotalRequests m;
     TotalCartons := TotalCartons m;
     TotalPallets := TotalPallets m;
     AverageTimeMs := AverageTimeMs m;
     AverageUtilPct := AverageUtilPct m;
     SuccessRate := SuccessRate m;
     UptimeSeconds := UptimeSeconds m;
     MemoryAllocMB := MemoryAllocMB m;
     MemorySysMB := MemorySysMB m;
     NumGoroutines := NumGoroutines m;
     NumGC := NumGC m;
     LastGCPauseMs := x;
     GoVersion := GoVersion m;
     BuildVersion := BuildVersion m;
     BuildTime := BuildTime m |}.

Definition withGoVersion (x : string) (m : t) : t :=
  {| TotalRequests := TotalRequests m;
     TotalCartons := TotalCartons m;
     TotalPallets := TotalPallets m;
     AverageTimeMs := AverageTimeMs m;
     AverageUtilPct := AverageUtilPct m;
     SuccessRate := SuccessRate m;
     UptimeSeconds := UptimeSeconds m;
     MemoryAllocMB := MemoryAllocMB m;
     MemorySysMB := MemorySysMB m;
     NumGoroutines := NumGoroutines m;
     NumGC := NumGC m;
     LastGCPauseMs := LastGCPauseMs m;
     GoVersion := x;
     BuildVersion := BuildVersion m;
     BuildTime := BuildTime m |}.

Definition withBuildVersion (x : string) (m : t) : t :=
  {| TotalRequests := TotalRequests m;
     TotalCartons := TotalCartons m;
     TotalPallets := TotalPallets m;
     AverageTimeMs := AverageTimeMs m;
     AverageUtilPct := AverageUtilPct m;
     SuccessRate := SuccessRate m;
     UptimeSeconds := UptimeSeconds m;
     MemoryAllocMB := MemoryAllocMB m;
     MemorySysMB := MemorySysMB m;
     NumGoroutines := NumGoroutines m;
     NumGC := NumGC m;
     LastGCPauseMs := LastGCPauseMs m;
     GoVersion := GoVersion m;
     BuildVersion := x;
     BuildTime := BuildTime m |}.

Definition withBuildTime (x : string) (m : t) : t :=
  {| TotalRequests := TotalRequests m;
     TotalCartons := TotalCartons m;
     TotalPallets := TotalPallets m;
     AverageTimeMs := AverageTimeMs m;
     AverageUtilPct := AverageUtilPct m;
     SuccessRate := SuccessRate m;
     UptimeSeconds := UptimeSeconds m;
     MemoryAllocMB := MemoryAllocMB m;
     MemorySysMB := MemorySysMB m;
     NumGoroutines := NumGoroutines m;
     NumGC := NumGC m;
     LastGCPauseMs := LastGCPauseMs m;
     GoVersion := GoVersion m;
     BuildVersion := BuildVersion m;
     BuildTime := x |}.

Definition setField (name : string) (v : json.value) (m : t) : result t :=
  if (name =? json.foldName "total_requests")%string then
    x <- json.decodeInt v (TotalRequests m) ;; ret (withTotalRequests x m)
  else if (name =? json.foldName "total_cartons")%string then
    x <- json.decodeInt v (TotalCartons m) ;; ret (withTotalCartons x m)
  else if (name =? json.foldName "total_pallets")%string then
    x <- json.decodeInt v (TotalPallets m) ;; ret (withTotalPallets x m)
  else if (name =? json.foldName "average_time_ms")%string then
    x <- json.decodeFloat64 v (AverageTimeMs m) ;; ret (withAverageTimeMs x m)
  else if (name =? json.foldName "average_util_pct")%string then
    x <- json.decodeFloat64 v (AverageUtilPct m) ;; ret (withAverageUtilPct x m)
  else if (name =? json.foldName "success_rate")%string then
    x <- json.decodeFloat64 v (SuccessRate m) ;; ret (withSuccessRate x m)
  else if (name =? json.foldName "uptime_seconds")%string then
    x <- json.decodeInt v (UptimeSeconds m) ;; ret (withUptimeSeconds x m)
  else if (name =? json.foldName "memory_alloc_mb")%string then
    x <- json.decodeFloat64 v (MemoryAllocMB m) ;; ret (withMemoryAllocMB x m)
  else if (name =? json.foldName "memory_sys_mb")%string then
    x <- json.decodeFloat64 v (MemorySysMB m) ;; ret (withMemorySysMB x m)
  else if (name =? json.foldName "num_goroutines")%string then
    x <- json.decodeInt v (NumGoroutines m) ;; ret (withNumGoroutines x m)
  else if (name =? json.foldName "num_gc")%string then
    x <- decodeUint32 v (NumGC m) ;; ret (withNumGC x m)
  else if (name =? json.foldName "last_gc_pause_ms")%string then
    x <- json.decodeFloat64 v (LastGCPauseMs m) ;; ret (withLastGCPauseMs x m)
  else if (name =? json.foldName "go_version")%string then
    x <- json.decodeString v (GoVersion m) ;; ret (withGoVersion x m)
  else if (name =? json.foldName "build_version")%string then
    x <- json.decodeString v (BuildVersion m) ;; ret (withBuildVersion x m)
  else if (name =? json.foldName "build_time")%string then
    x <- json.decodeString v (BuildTime m) ;; ret (withBuildTime x m)
  else ret m.

Definition decode : json.value -> t -> result t := json.decodeStruct setField.

Definition encode (m : t) : result json.value :=
  average_time_ms <- json.encodeFloat64 (AverageTimeMs m) ;;
  average_util_pct <- json.encodeFloat64 (AverageUtilPct m) ;;
  success_rate <- json.encodeFloat64 (SuccessRate m) ;;
  memory_alloc_mb <- json.encodeFloat64 (MemoryAllocMB m) ;;
  memory_sys_mb <- json.encodeFloat64 (MemorySysMB m) ;;
  last_gc_pause_ms <- json.encodeFloat64 (LastGCPauseMs m) ;;
  ret (json.JObject
         [("total_requests", json.encodeInt (TotalRequests m));
          ("total_cartons", json.encodeInt (TotalCartons m));
          ("total_pallets", json.encodeInt (TotalPallets m));
          ("average_time_ms", average_time_ms);
          ("average_util_pct", average_util_pct);
          ("success_rate", success_rate);
          ("uptime_seconds", json.encodeInt (UptimeSeconds m));
          ("memory_alloc_mb", memory_alloc_mb);
          ("memory_sys_mb", memory_sys_mb);
          ("num_goroutines", json.encodeInt (NumGoroutines m));
          ("num_gc", json.encodeInt (NumGC m));
          ("last_gc_pause_ms", last_gc_pause_ms);
          ("go_version", json.JString (GoVersion m));
          ("build_version", json.JString (BuildVersion m));
          ("build_time", json.JString (BuildTime m))]).

End MetricsResponse.

Abbreviation MetricsResponse := MetricsResponse.t.

(** * client.go: Health and Metrics

    Both send a GET request without a body, look at the status first, and
    then decode the body with [json.NewDecoder(resp.Body).Decode]. *)

(** The first JSON value of a stream, as [Decoder.Decode] reads it: white
    space is skipped, and what follows the value is not looked at. *)
Definition first_value (data : string) : option json.value :=
  let s := list_ascii_of_string data in
  option_map fst (json.parse_value (S (List.length s)) 0 s).

Section Health.

Variable url_Parse : string -> option error.

(** [encoding/json]: the error of [Decoder.Decode] on a stream that holds no
    whole value: [io.EOF] when it is empty, [io.ErrUnexpectedEOF] when it
    ends inside a value, a [SyntaxError] otherwise.  The choice is the
    library's; [Health] and [Metrics] only wrap the error. *)
Variable Decode_error : string -> error.

(** [json.NewDecoder(body).Decode(&target)].  A body whose reading fails is
    taken to fail before a whole value has arrived. *)
Definition Decode {A : Type} (decode : json.value -> A -> result A)
  (body : result string) (target : A) : result A :=
  match body with
  | inl err => inl err
  | inr data =>
      match first_value data with
      | Some v => decode v target
      | None => inl (Decode_error data)
      end
  end.

(** [Health]: a nil body is the empty body. *)
Definition Health (c : Client) (ctx : context.Context)
  : option HealthResponse * option error :=
  match NewRequestWithContext url_Parse ctx "GET" (Client.baseURL c +++ "/api/v1/health") "" with
  | inl err => (None, Some (wrapError "failed to create request: " err))
  | inr req =>
      match Client.httpClient c req with
      | inl err => (None, Some (wrapError "failed to send request: " err))
      | inr resp =>
          if negb (http.StatusCode resp =? http.StatusOK) then
            (None, Some (errorString
                           ("health check failed with status "
                            +++ strconv.FormatInt (http.StatusCode resp))))
          else
            match Decode HealthResponse.decode (http.ReadBody resp) HealthResponse.zero with
            | inl err => (None, Some (wrapError "failed to parse response: " err))
            | inr health => (Some health, None)
            end
      end
  end.

(** [Metrics]. *)
Definition Metrics (c : Client) (ctx : context.Context)
  : option MetricsResponse * option error :=
  match NewRequestWithContext url_Parse ctx "GET" (Client.baseURL c +++ "/api/v1/metrics") "" with
  | inl err => (None, Some (wrapError "failed to create request: " err))
  | inr req =>
      match Client.httpClient c req with
      | inl err => (None, Some (wrapError "failed to send request: " err))
      | inr resp =>
          if negb (http.StatusCode resp =? http.StatusOK) then
            (None, Some (errorString
                           ("metrics request failed with status "
                            +++ strconv.FormatInt (http.StatusCode resp))))
          else
            match Decode MetricsResponse.decode (http.ReadBody resp) MetricsResponse.zero with
            | inl err => (None, Some (wrapError "failed to parse response: " err))
            | inr metrics => (Some metrics, None)
            end
      end
  end.

End Health.

(** ** Test doubles of Health and Metrics *)

(** [io.EOF] and [io.ErrUnexpectedEOF] are [errors.New] of these texts; this
    decoder error tells an empty stream from the rest. *)
Definition decode_error (data : string) : error :=
  match json.skip_ws (list_ascii_of_string data) with
  | [] => errorString "EOF"
  | _ :: _ => SyntaxError
  end.

(** The mock servers of [TestHealth] and [TestMetrics]. *)
Definition client_TestHealth : Client :=
  NewWithHTTPClient "http://127.0.0.1:8080"
    (server 200
       (match HealthResponse.encode {| HealthResponse.Status := "healthy" |} with
        | inr v => json.render v +++ String (char 10) ""
        | inl _ => ""
        end)).

Definition metrics_TestMetrics : MetricsResponse :=
  MetricsResponse.withTotalRequests 100
    (MetricsResponse.withTotalCartons 500
       (MetricsResponse.withTotalPallets 50
          (MetricsResponse.withAverageTimeMs 10.5 MetricsResponse.zero))).

Definition client_TestMetrics : Client :=
  NewWithHTTPClient "http://127.0.0.1:8080"
    (server 200
       (match MetricsResponse.encode metrics_TestMetrics with
        | inr v => json.render v +++ String (char 10) ""
        | inl _ => ""
        end)).

(** A server that is down behind a proxy: status 503 and a page. *)
Definition client_unavailable : Client :=
  NewWithHTTPClient "http://127.0.0.1:8080" (server 503 "<html>Service Unavailable</html>").

(** ** Numbers that do not fit their field *)

(** A Go [int] (64 bits) and a [uint32]. *)
Definition is_int (n : Z) : bool := (- 2 ^ 63 <=? n) && (n <? 2 ^ 63).

Definition is_uint32 (n : Z) : bool := (0 <=? n) && (n <? 2 ^ 32).

(** The error of a decoder that met a value it cannot store. *)
Definition type_error (e : error) : Prop := exists what, e = UnmarshalTypeError what.

(** [m] has a member for the field [tag] that the decoder of an [int]
    refuses: a number with a fraction or an exponent, a whole number that
    does not fit in 64 bits, or a value that is no number. *)
Definition bad_int (tag : string) (m : list (string * json.value)) : Prop :=
  exists k v e,
    In (k, v) m /\
    json.foldName k = json.foldName tag /\
    json.decodeInt v 0 = inl e.

(** The same for a [uint32] field. *)
Definition bad_uint32 (tag : string) (m : list (string * json.value)) : Prop :=
  exists k v e,
    In (k, v) m /\
    json.foldName k = json.foldName tag /\
    decodeUint32 v 0 = inl e.

(** A [PackingResponse] written with such a member: for an [int] field of
    the summary, or for the [pallet_id] of one of the pallets. *)
Definition PackingResponse_bad_int (v : json.value) : Prop :=
  exists m,
    v = json.JObject m /\
    ((exists k ms tag,
         In (k, json.JObject ms) m /\
         json.foldName k = json.foldName "summary" /\
         In tag ["total_pallets"; "total_cartons_packed"; "computation_time_ms"] /\
         bad_int tag ms) \/
     (exists k l mp,
         In (k, json.JArray l) m /\
         json.foldName k = json.foldName "pallets" /\
         In (json.JObject mp) l /\
         bad_int "pallet_id" mp)).

(** A [MetricsResponse] written with such a member. *)
Definition MetricsResponse_bad_int (v : json.value) : Prop :=
  exists m,
    v = json.JObject m /\
    ((exists tag,
         In tag ["total_requests"; "total_cartons"; "total_pallets"; "uptime_seconds";
                 "num_goroutines"] /\
         bad_int tag m) \/
     bad_uint32 "num_gc" m).

(** U+017F, the long s, and U+212A, the Kelvin sign, in UTF-8. *)
Definition long_s : string := String (char 0xC5) (String (char 0xBF) "").

Definition kelvin : string := String (char 0xE2) (String (char 0x84) (String (char 0xAA) "")).

(** Servers that write a count that no [int] holds, [2 ^ 63], and a number
    of collections that no [uint32] holds, [2 ^ 32]. *)
Definition client_overflow : Client :=
  NewWithHTTPClient "http://127.0.0.1:8080"
    (server 200 (text "{'pallets':[],'summary':{'total_pallets':9223372036854775808}}")).

Definition client_overflow_gc : Client :=
  NewWithHTTPClient "http://127.0.0.1:8080"
    (server 200 (text "{'total_requests':100,'num_gc':4294967296}")).

(** The member names of the other structs, from the field tags. *)
Definition PalletConstraints_names : list string :=
  ["max_length"; "max_width"; "max_height"; "max_weight"].

Definition PackingResponse_names : list string := ["pallets"; "summary"; "error"].

Definition PackingSummary_names : list string :=
  ["total_pallets"; "total_cartons_packed"; "average_utilization"; "computation_time_ms"].

Definition PlacedCarton_names : list string :=
  ["carton_id"; "position"; "dimensions"; "orientation"; "weight"].

Definition Point3D_names : list string := ["x"; "y"; "z"].

Definition Dimensions_names : list string := ["length"; "width"; "height"].

(** [float64(n)] for a small non-negative integer. *)
Definition float64_of_Z (n : Z) : float64 := PrimFloat.of_uint63 (Uint63.of_Z n).

(** [a] and [b] are the same binary64 or neighbours. *)
Definition within_one_ulp (a b : float64) : bool :=
  PrimFloat.eqb a b || PrimFloat.eqb a (PrimFloat.next_up b)
  || PrimFloat.eqb a (PrimFloat.next_down b).

(** [p] holds of the [n] integers from [i] on. *)
Fixpoint all_from (n : nat) (i : Z) (p : Z -> bool) : bool :=
  match n with
  | O => true
  | S k => p i && all_from k (i + 1) p
  end.

(** ** More test doubles *)

(** A server that knows one route: it answers like [TestPack] to a POST on
    [/api/v1/pack], as the handler of the test expects, and 404 to anything
    else. *)
Definition routed : http.Client :=
  fun req =>
    if ((http.Method req =? "POST") && (http.URL req =? "http://127.0.0.1:8080/api/v1/pack"))%string
    then server 200 (Encode response_TestPack) req
    else server 404 "" req.

Definition client_routed : Client := NewWithHTTPClient "http://127.0.0.1:8080" routed.

(** A client whose exchange runs into the deadline. *)
Definition client_timeout : Client :=
  NewWithHTTPClient "http://127.0.0.1:8080"
    (fun req => inl (urlError "Post" (http.URL req) DeadlineExceeded)).

(** A server without the route: 404 and a JSON body that has no [error]. *)
Definition client_not_found : Client :=
  NewWithHTTPClient "http://127.0.0.1:8080" (server 404 (text "{'message':'not found'}")).

(** A request whose carton has no weight yet: NaN. *)
Definition request_NaN : PackingRequest :=
  {| PackingRequest.Cartons :=
       Some [ {| Carton.ID := "BOX001";
                 Carton.Length := 609.6;
                 Carton.Width := 457.2;
                 Carton.Height := 406.4;
                 Carton.Weight := nan;
                 Carton.Quantity := 1;
                 Carton.Fragile := false;
                 Carton.AllowRotation := true |} ];
     PackingRequest.PalletConstraints := StandardPallet;
     PackingRequest.PackingOptions := {| PackingOptions.SupportPercentage := 80.0 |} |}.

(** A request without cartons, the slice nil or empty. *)
Definition request_cartons (cartons : slice Carton) : PackingRequest :=
  {| PackingRequest.Cartons := cartons;
     PackingRequest.PalletConstraints := StandardPallet;
     PackingRequest.PackingOptions := {| PackingOptions.SupportPercentage := 80.0 |} |}.

(** The round trips of the conversions on [float64(n)], and the conversions
    against the exact ones rounded once. *)
Definition length_round_trip (n : Z) : bool :=
  let x := float64_of_Z n in
  within_one_ulp (MMToInches (InchesToMM x)) x
  && within_one_ulp (InchesToMM (MMToInches x)) x.

Definition weight_round_trip (n : Z) : bool :=
  let x := float64_of_Z n in
  within_one_ulp (GramsToPounds (PoundsToGrams x)) x
  && within_one_ulp (PoundsToGrams (GramsToPounds x)) x.

Definition conversions_accurate (n : Z) : bool :=
  let x := float64_of_Z n in
  within_one_ulp (InchesToMM x) (float64_of_Q (Exact.InchesToMM (inject_Z n)))
  && within_one_ulp (MMToInches x) (float64_of_Q (Exact.MMToInches (inject_Z n)))
  && within_one_ulp (PoundsToGrams x) (float64_of_Q (Exact.PoundsToGrams (inject_Z n)))
  && within_one_ulp (GramsToPounds x) (float64_of_Q (Exact.GramsToPounds (inject_Z n))).

(** The error of an encoder that ran into a float64 it cannot write. *)
Definition unsupported (e : error) : Prop :=
  exists str, In str ["NaN"; "+Inf"; "-Inf"] /\ e = UnsupportedValueError str.

(** * Tactics *)

(** [errors.Is] sees through the wrappers of [Pack]. *)
Ltac case_error_eq :=
  match goal with
  | |- context [error_eq_dec ?a ?b] => destruct (error_eq_dec a b)
  end.

(** Case analysis on the next encoder of a sequence of binds. *)
Ltac next_float :=
  match goal with
  | |- context [json.encodeFloat64 ?f] =>
      let E := fresh "E" in
      destruct (json.encodeFloat64 f) eqn:E
  end.

(** Evaluate the case folding of a literal name, and the comparisons of
    literal names. *)
Ltac eval_foldName :=
  repeat match goal with
         | |- context [json.foldName ?s] =>
             let n := eval vm_compute in (json.foldName s) in
             change (json.foldName s) with n
         end.

Ltac eval_string_eqb :=
  repeat match goal with
         | |- context [String.eqb ?a ?b] =>
             let t := eval vm_compute in (String.eqb a b) in
             change (String.eqb a b) with t
         end;
  cbv iota.

(** * Lemmas on the library *)

Lemma all_from_spec p n i :
  all_from n i p = true -> forall k, i <= k < i + Z.of_nat n -> p k = true.
Proof.
  revert i. induction n as [| n IH]; intros i H k [Hlo Hhi].
  - exfalso. rewrite Z.add_0_r in Hhi. exact (Z.lt_irrefl _ (Z.le_lt_trans _ _ _ Hlo Hhi)).
  - cbn [all_from] in H. apply andb_true_iff in H. destruct H as [Hi Hrest].
    destruct (Z.eq_dec i k) as [-> | Hne]; [exact Hi |].
    apply (IH (i + 1) Hrest).
    rewrite Nat2Z.inj_succ in Hhi. split.
    + apply Z.le_succ_l. apply Z.le_neq. split; assumption.
    + rewrite <- Z.add_assoc, (Z.add_comm 1), Z.add_1_r. exact Hhi.
Qed.

Lemma all_from_0 p n :
  0 <= n -> all_from (Z.to_nat n) 0 p = true -> forall k, 0 <= k < n -> p k = true.
Proof.
  intros Hn H k Hk. apply (all_from_spec p (Z.to_nat n) 0 H).
  rewrite Z2Nat.id, Z.add_0_l; assumption.
Qed.

(** ** strconv: a number printed is the number read *)

Lemma digits_of_uint_acc d : forall acc,
  fold_left (fun a c => 10 * a + (code c - 48))
    (list_ascii_of_string (NilEmpty.string_of_uint d)) (Zpos acc)
  = Zpos (Pos.of_uint_acc d acc).
Proof.
  induction d; intros acc; cbn [NilEmpty.string_of_uint list_ascii_of_string fold_left Pos.of_uint_acc];
    try reflexivity; rewrite <- IHd; f_equal; vm_compute code; lia.
Qed.

Lemma digits_of_uint d :
  digits_value (list_ascii_of_string (NilEmpty.string_of_uint d)) = Z.of_uint d.
Proof.
  unfold digits_value, Z.of_uint.
  induction d; cbn [NilEmpty.string_of_uint list_ascii_of_string fold_left Pos.of_uint];
    try reflexivity; try exact IHd;
    match goal with
    | |- fold_left _ _ ?a = _ =>
        let v := eval vm_compute in a in
        change a with v
    end;
    match goal with
    | |- fold_left _ _ (Zpos ?a) = _ => rewrite (digits_of_uint_acc d a); reflexivity
    end.
Qed.

Lemma digits_are_digits d :
  forallb is_digit (list_ascii_of_string (NilEmpty.string_of_uint d)) = true.
Proof.
  induction d; cbn [NilEmpty.string_of_uint list_ascii_of_string forallb];
    try reflexivity; rewrite IHd; reflexivity.
Qed.

(** The text of an unsigned number: its digits, at least one, and no sign. *)
Lemma string_of_uint_digits d :
  exists c ds,
    list_ascii_of_string (NilZero.string_of_uint d) = c :: ds /\
    is_digit c = true /\ forallb is_digit ds = true /\
    digits_value (c :: ds) = Z.of_uint d.
Proof.
  destruct d;
    try (exists "0"%char, []; repeat split; reflexivity);
    unfold NilZero.string_of_uint;
    match goal with
    | |- context [NilEmpty.string_of_uint ?u] =>
        pose proof (digits_are_digits u) as Hd;
        pose proof (digits_of_uint u) as Hv;
        cbn [NilEmpty.string_of_uint list_ascii_of_string forallb] in Hd, Hv |- *
    end;
    apply andb_true_iff in Hd; destruct Hd as [Hc Hd];
    do 2 eexists; repeat split; eassumption.
Qed.

Lemma is_digit_not_minus c ds :
  is_digit c = true ->
  match c :: ds with
  | "-"%char :: r => (true, r)
  | _ => (false, c :: ds)
  end = (false, c :: ds).
Proof.
  intros H. destruct c as [[] [] [] [] [] [] [] []]; try reflexivity; discriminate H.
Qed.

Lemma of_uint_nonneg d : 0 <= Z.of_uint d.
Proof. unfold Z.of_uint. apply N2Z.is_nonneg. Qed.

(** [strconv.ParseInt] reads what [strconv.FormatInt] wrote, when that fits
    in 64 bits, and refuses it otherwise. *)
Lemma ParseInt_FormatInt n :
  strconv.ParseInt (strconv.FormatInt n)
  = if (- 2 ^ 63 <=? n) && (n <? 2 ^ 63) then Some n else None.
Proof.
  unfold strconv.FormatInt, strconv.ParseInt.
  pose proof (DecimalZ.of_to n) as Hn.
  destruct (Z.to_int n) as [d | d]; cbn [NilZero.string_of_int Z.of_int] in Hn |- *.
  - destruct (string_of_uint_digits d) as (c & ds & -> & Hc & Hds & Hv).
    rewrite (is_digit_not_minus c ds Hc).
    cbn [forallb]. rewrite Hc, Hds. cbn [andb]. rewrite Hv, Hn. reflexivity.
  - cbn [list_ascii_of_string].
    destruct (string_of_uint_digits d) as (c & ds & -> & Hc & Hds & Hv).
    cbn [forallb]. rewrite Hc, Hds. cbn [andb]. rewrite Hv, Hn. reflexivity.
Qed.

(** [strconv.ParseUint] refuses a sign. *)
Lemma ParseUint_FormatInt n :
  ParseUint (strconv.FormatInt n)
  = if (0 <=? n) && (n <? 2 ^ 64) then Some n else None.
Proof.
  unfold strconv.FormatInt, ParseUint.
  pose proof (DecimalZ.of_to n) as Hn.
  destruct n as [| p | p]; [reflexivity | |];
    cbn [Z.to_int NilZero.string_of_int Z.of_int] in Hn |- *.
  - destruct (string_of_uint_digits (Pos.to_uint p)) as (c & ds & -> & Hc & Hds & Hv).
    cbn [forallb]. rewrite Hc, Hds. cbn [andb]. rewrite Hv, Hn. reflexivity.
  - reflexivity.
Qed.

(** ** Folded names *)

Lemma code_char b : 0 <= b < 256 -> code (char b) = b.
Proof.
  intros Hb. unfold code, char.
  rewrite N_ascii_embedding; [apply Z2N.id; lia |].
  change 256%N with (Z.to_N 256). apply Z2N.inj_lt; lia.
Qed.

(** The first byte of a rune outside ASCII is not an ASCII byte. *)
Lemma EncodeRune_lead x :
  0x80 <= x -> exists b rest, utf8.EncodeRune x = b :: rest /\ 0x80 <= b < 256.
Proof.
  intros Hx. unfold utf8.EncodeRune.
  set (r := if (x <? 0) || (0x10FFFF <? x) || utf8.between x 0xD800 0xDFFF
            then utf8.RuneError else x).
  assert (0x80 <= r <= 0x10FFFF) as Hr.
  { subst r. unfold utf8.RuneError.
    destruct (x <? 0) eqn:H1; [lia |].
    destruct (0x10FFFF <? x) eqn:H2; [cbn [orb]; lia |].
    destruct (utf8.between x 0xD800 0xDFFF); cbn [orb]; lia. }
  clearbody r.
  assert (forall a n, all_from (Z.to_nat n) 0
                        (fun y => (0x80 <=? Z.lor a y) && (Z.lor a y <? 256)) = true ->
                      0 <= n -> forall y, 0 <= y < n -> 0x80 <= Z.lor a y < 256) as Hlor.
  { intros a n Hall Hn y Hy.
    pose proof (all_from_0 _ n Hn Hall y Hy) as H. cbv beta in H.
    apply andb_true_iff in H. destruct H as [H1 H2]. lia. }
  destruct (r <=? 0x7F) eqn:H1; [lia |].
  destruct (r <=? 0x7FF) eqn:H2; [| destruct (r <=? 0xFFFF) eqn:H3];
    do 2 eexists; (split; [reflexivity |]); rewrite Z.shiftr_div_pow2 by lia.
  - apply (Hlor 0xC0 32); [vm_compute; reflexivity | lia |].
    split; [apply Z.div_pos; lia | apply Z.div_lt_upper_bound; lia].
  - apply (Hlor 0xE0 16); [vm_compute; reflexivity | lia |].
    split; [apply Z.div_pos; lia | apply Z.div_lt_upper_bound; lia].
  - apply (Hlor 0xF0 8); [vm_compute; reflexivity | lia |].
    split; [apply Z.div_pos; lia | apply Z.div_lt_upper_bound; lia].
Qed.

(** An ASCII name folds to an ASCII name, whatever the folding of the other
    runes. *)
Lemma appendFoldedName_ascii fold s :
  Forall (fun c => code c < 0x80) s ->
  Forall (fun c => code c < 0x80) (json.appendFoldedName fold O s).
Proof.
  induction 1 as [| c s Hc Hs IH]; cbn [json.appendFoldedName]; [constructor |].
  apply Z.ltb_lt in Hc as Hc'. rewrite Hc'.
  constructor; [| exact IH].
  destruct ((97 <=? code c) && (code c <=? 122)) eqn:Hl; [| exact Hc].
  rewrite code_char; lia.
Qed.

(** Whether a folded name is a given ASCII string does not depend on the
    folding of the runes that fold outside ASCII. *)
Lemma appendFoldedName_independent (fold fold' : Z -> Z) :
  (forall r, fold r = fold' r \/ (0x80 <= fold r /\ 0x80 <= fold' r)) ->
  forall s skip t,
    Forall (fun c => code c < 0x80) t ->
    json.appendFoldedName fold skip s = t <-> json.appendFoldedName fold' skip s = t.
Proof.
  intros Hfold. induction s as [| c s IH]; intros skip t Ht; [reflexivity |].
  cbn [json.appendFoldedName]. destruct skip as [| k]; [| apply IH; exact Ht].
  destruct (code c <? 0x80).
  - destruct t as [| d t]; [split; discriminate |].
    apply Forall_inv_tail in Ht.
    split; intros [= -> H]; f_equal; apply (IH O t Ht); exact H.
  - destruct (utf8.DecodeRune _) as [rn n].
    destruct (Hfold rn) as [-> | [H1 H2]].
    + split; intros <-; f_equal;
        apply Forall_app in Ht; destruct Ht as [_ Ht];
        apply (IH _ _ Ht); reflexivity.
    + destruct (EncodeRune_lead _ H1) as (b1 & r1 & -> & Hb1).
      destruct (EncodeRune_lead _ H2) as (b2 & r2 & -> & Hb2).
      cbn [map app].
      split; intros <-; apply Forall_inv in Ht; rewrite code_char in Ht; lia.
Qed.

(** Against an ASCII name, the comparison of folded names comes out the same
    for every folding of the runes outside ASCII that agrees with [foldRune]
    where [foldRune] leaves ASCII or enters it. *)
Lemma foldName_ascii (fold : Z -> Z) key tag :
  (forall r, fold r = json.foldRune r \/ (0x80 <= fold r /\ 0x80 <= json.foldRune r)) ->
  Forall (fun c => code c < 0x80) (list_ascii_of_string tag) ->
  json.appendFoldedName fold O (list_ascii_of_string key)
  = json.appendFoldedName fold O (list_ascii_of_string tag)
  <-> json.foldName key = json.foldName tag.
Proof.
  intros Hfold Htag. unfold json.foldName.
  assert (forall a b, string_of_list_ascii a = string_of_list_ascii b <-> a = b) as Hinj.
  { intros a b. split; [| intros ->; reflexivity].
    intros H. rewrite <- (list_ascii_of_string_of_list_ascii a),
                      <- (list_ascii_of_string_of_list_ascii b), H. reflexivity. }
  rewrite Hinj.
  pose proof (appendFoldedName_ascii fold _ Htag) as H1.
  pose proof (appendFoldedName_ascii json.foldRune _ Htag) as H2.
  assert (json.appendFoldedName fold O (list_ascii_of_string tag)
          = json.appendFoldedName json.foldRune O (list_ascii_of_string tag)) as E.
  { apply (appendFoldedName_independent fold json.foldRune Hfold _ O _ H2). reflexivity. }
  rewrite E.
  apply (appendFoldedName_independent fold json.foldRune Hfold _ O _ H2).
Qed.

(** * The tests of client_test.go, replayed *)

(** [TestPack]: the mock server's response comes back decoded, field for
    field. *)
Example TestPack :
  Pack accept_url client_TestPack context.Background (Some request_TestPack)
  = (Some response_TestPack, None).
Proof. vm_compute. reflexivity. Qed.

(** [TestStandardPallet]. *)
Example TestStandardPallet :
  PalletConstraints.MaxLength StandardPallet = 1016.0%float /\
  PalletConstraints.MaxWidth StandardPallet = 1828.8%float /\
  PalletConstraints.MaxHeight StandardPallet = 1219.2%float /\
  PalletConstraints.MaxWeight StandardPallet = 680388.0%float.
Proof. repeat split. Qed.

Example TestConversions :
  within (InchesToMM 10.0) 254.0 = true /\
  within (PoundsToGrams 10.0) 4535.92 = true /\
  within (MMToInches 254.0) 10.0 = true /\
  within (GramsToPounds 4535.92) 10.0 = true.
Proof. repeat split; vm_compute; reflexivity. Qed.

(** The body [TestPack] posts. *)
Example TestPack_body :
  Marshal (Some request_TestPack)
  = inr (text ("{'cartons':[{'id':'BOX001','length':609.6,'width':457.2,'height':406.4,"
               +++ "'weight':18143.68,'quantity':1,'fragile':false,'allow_rotation':true}],"
               +++ "'pallet_constraints':{'max_length':1016,'max_width':1828.8,"
               +++ "'max_height':1219.2,'max_weight':680388},"
               +++ "'packing_options':{'support_percentage':80}}")).
Proof. vm_compute. reflexivity. Qed.

(** * Properties of [Pack] *)

(** What a request that [Pack] hands to the HTTP client looks like. *)
Lemma Pack_request_inr url_Parse c ctx request req :
  Pack_request url_Parse c ctx request = inr req ->
  exists jsonData,
    Marshal request = inr jsonData /\
    url_Parse (Client.baseURL c +++ "/api/v1/pack") = None /\
    req = {| http.Method := "POST";
             http.URL := Client.baseURL c +++ "/api/v1/pack";
             http.Headers := [("Content-Type", "application/json")];
             http.Body := jsonData;
             http.Ctx := ctx |}.
Proof.
  unfold Pack_request, NewRequestWithContext.
  destruct (Marshal request) as [e | jsonData]; [discriminate |].
  destruct (url_Parse _) as [e |] eqn:Hurl; [discriminate |].
  intros H. inversion H. exists jsonData. repeat split.
Qed.

Lemma Pack_request_inr_iff url_Parse c ctx request :
  (exists req, Pack_request url_Parse c ctx request = inr req) <->
  (exists jsonData, Marshal request = inr jsonData) /\
  url_Parse (Client.baseURL c +++ "/api/v1/pack") = None.
Proof.
  split.
  - intros [req H]. destruct (Pack_request_inr _ _ _ _ _ H) as (j & Hm & Hu & _).
    split; [exists j |]; assumption.
  - intros [[j Hm] Hu]. unfold Pack_request, NewRequestWithContext.
    rewrite Hm, Hu. eexists. reflexivity.
Qed.

(** Every return of [Pack] is a response with a nil error, or a nil response
    with an error. *)
Lemma Pack_response_cases resp :
  (exists response, Pack_response resp = (Some response, None)) \/
  (exists err, Pack_response resp = (None, Some err)).
Proof.
  unfold Pack_response.
  destruct (http.ReadBody resp) as [e | body]; [right; eexists; reflexivity |].
  destruct (Unmarshal body PackingResponse.zero) as [e | response];
    [right; eexists; reflexivity |].
  destruct (negb (http.StatusCode resp =? http.StatusOK)).
  - destruct (negb (PackingResponse.Error response =? "")%string);
      right; eexists; reflexivity.
  - left. eexists. reflexivity.
Qed.

Lemma Pack_cases url_Parse c ctx request :
  (exists response, Pack url_Parse c ctx request = (Some response, None)) \/
  (exists err, Pack url_Parse c ctx request = (None, Some err)).
Proof.
  unfold Pack.
  destruct (Pack_request url_Parse c ctx request) as [e | req];
    [right; eexists; reflexivity |].
  destruct (Client.httpClient c req) as [e | resp]; [right; eexists; reflexivity |].
  apply Pack_response_cases.
Qed.


Lemma errors_Is_wrapError msg err target :
  errors_Is err target = true -> errors_Is (wrapError msg err) target = true.
Proof. intros H. cbn [errors_Is]. case_error_eq; [reflexivity | exact H]. Qed.



(** ** What is sent *)

(** A float64 is written exactly when it is finite. *)
Lemma encodeFloat64_inr f :
  finite f = true -> exists lit, json.encodeFloat64 f = inr (json.JNumber lit).
Proof.
  unfold finite, json.encodeFloat64. intros H. apply negb_true_iff in H.
  rewrite H. eexists. reflexivity.
Qed.

Lemma encodeFloat64_finite f v : json.encodeFloat64 f = inr v -> finite f = true.
Proof.
  unfold finite, json.encodeFloat64.
  destruct (PrimFloat.is_nan f || PrimFloat.is_infinity f); [discriminate | reflexivity].
Qed.

Lemma Carton_encode_inr c :
  (exists v, Carton.encode c = inr v) <-> Carton_finite c = true.
Proof.
  unfold Carton_finite, Carton.encode. split.
  - intros [v H]. revert H. cbn [bind Monad_either ret].
    repeat next_float; try discriminate. intros _.
    repeat (apply andb_true_iff; split); eapply encodeFloat64_finite; eassumption.
  - intros H. repeat (apply andb_true_iff in H; destruct H as [H ?]).
    repeat match goal with
           | F : finite _ = true |- _ => apply encodeFloat64_inr in F; destruct F as [? F]
           end.
    cbn [bind Monad_either ret].
    repeat match goal with F : json.encodeFloat64 _ = _ |- _ => rewrite F; clear F end.
    eexists. reflexivity.
Qed.

Lemma Carton_encode_names c v : Carton.encode c = inr v -> field_names v = Carton_names.
Proof.
  unfold Carton.encode. cbn [bind Monad_either ret].
  repeat next_float; try discriminate.
  intros H. inversion H. reflexivity.
Qed.

Lemma encodeList_Carton_inr l :
  (exists vs, json.encodeList Carton.encode l = inr vs) <-> forallb Carton_finite l = true.
Proof.
  induction l as [| c l IH]; cbn [json.encodeList forallb bind Monad_either ret].
  - split; [reflexivity | eexists; reflexivity].
  - rewrite andb_true_iff, <- IH, <- Carton_encode_inr.
    destruct (Carton.encode c) as [e | v].
    + split; [intros [vs H]; discriminate | intros [[v H] _]; discriminate].
    + destruct (json.encodeList Carton.encode l) as [e | vs].
      * split; [intros [ws H]; discriminate | intros [_ [ws H]]; discriminate].
      * split; [intros _; split; eexists; reflexivity | intros _; eexists; reflexivity].
Qed.

Lemma encodeList_Carton_names l vs :
  json.encodeList Carton.encode l = inr vs ->
  List.length vs = List.length l /\ Forall (fun v => field_names v = Carton_names) vs.
Proof.
  revert vs. induction l as [| c l IH]; intros vs;
    cbn [json.encodeList bind Monad_either ret].
  - intros H. inversion H. split; [reflexivity | constructor].
  - destruct (Carton.encode c) as [e | v] eqn:Hc; [discriminate |].
    destruct (json.encodeList Carton.encode l) as [e | ws]; [discriminate |].
    intros H. inversion H. destruct (IH ws eq_refl) as [Hlen Hall].
    split; [simpl; congruence |].
    constructor; [exact (Carton_encode_names c v Hc) | exact Hall].
Qed.

Lemma PalletConstraints_encode_inr p :
  (exists v, PalletConstraints.encode p = inr v) <-> PalletConstraints_finite p = true.
Proof.
  unfold PalletConstraints_finite, PalletConstraints.encode. split.
  - intros [v H]. revert H. cbn [bind Monad_either ret].
    repeat next_float; try discriminate. intros _.
    repeat (apply andb_true_iff; split); eapply encodeFloat64_finite; eassumption.
  - intros H. repeat (apply andb_true_iff in H; destruct H as [H ?]).
    repeat match goal with
           | F : finite _ = true |- _ => apply encodeFloat64_inr in F; destruct F as [? F]
           end.
    cbn [bind Monad_either ret].
    repeat match goal with F : json.encodeFloat64 _ = _ |- _ => rewrite F; clear F end.
    eexists. reflexivity.
Qed.

(** The shape of the text of a request, and the number it carries as
    [support_percentage]. *)
Lemma Marshal_inr r jsonData :
  Marshal (Some r) = inr jsonData ->
  exists cartons pallet_constraints support_percentage,
    json.encodeSlice Carton.encode (PackingRequest.Cartons r) = inr cartons /\
    json.encodeFloat64
      (PackingOptions.SupportPercentage (PackingRequest.PackingOptions r))
    = inr support_percentage /\
    jsonData
    = json.render
        (json.JObject
           [("cartons", cartons);
            ("pallet_constraints", pallet_constraints);
            ("packing_options",
             json.JObject [("support_percentage", support_percentage)])]).
Proof.
  unfold Marshal, PackingRequest.encode, PackingOptions.encode.
  cbn [bind Monad_either ret].
  destruct (json.encodeSlice Carton.encode (PackingRequest.Cartons r)) as [e | cartons];
    [discriminate |].
  destruct (PalletConstraints.encode (PackingRequest.PalletConstraints r)) as [e | pc];
    [discriminate |].
  destruct (json.encodeFloat64 _) as [e | sp]; [discriminate |].
  intros H. inversion H. exists cartons, pc, sp. repeat split.
Qed.

(** A request is written exactly when all its numbers are finite. *)
Lemma Marshal_inr_iff r :
  (exists jsonData, Marshal (Some r) = inr jsonData) <-> PackingRequest_finite r = true.
Proof.
  unfold PackingRequest_finite. rewrite !andb_true_iff.
  rewrite <- PalletConstraints_encode_inr, <- encodeList_Carton_inr.
  unfold Marshal, PackingRequest.encode, PackingOptions.encode, json.encodeSlice, elements.
  cbn [bind Monad_either ret].
  destruct (PackingRequest.Cartons r) as [l |]; cbn [json.encodeList].
  - destruct (json.encodeList Carton.encode l) as [e | vs].
    + split; [intros [j H]; discriminate | intros [[[vs H] _] _]; discriminate].
    + destruct (PalletConstraints.encode (PackingRequest.PalletConstraints r)) as [e | pc].
      * split; [intros [j H]; discriminate | intros [[_ [v H]] _]; discriminate].
      * next_float.
        -- split; [intros [j H]; discriminate |].
           intros [_ H]. apply encodeFloat64_inr in H. destruct H as [lit H]. congruence.
        -- split; [| intros _; eexists; reflexivity].
           intros _. repeat split; try (eexists; reflexivity).
           eapply encodeFloat64_finite; eassumption.
  - destruct (PalletConstraints.encode (PackingRequest.PalletConstraints r)) as [e | pc].
    + split; [intros [j H]; discriminate | intros [[_ [v H]] _]; discriminate].
    + next_float.
      * split; [intros [j H]; discriminate |].
        intros [_ H]. apply encodeFloat64_inr in H. destruct H as [lit H]. congruence.
      * split; [| intros _; eexists; reflexivity].
        intros _. repeat split; try (eexists; reflexivity).
        eapply encodeFloat64_finite; eassumption.
Qed.

(** ** What is read *)

(** A member that is not named after a field of [Pallet] is skipped. *)
Lemma Pallet_setField_other k v p :
  named Pallet_names (k, v) = false -> Pallet.setField (json.foldName k) v p = inr p.
Proof.
  unfold named, Pallet_names. cbn [existsb fst].
  intros H. repeat (apply orb_false_iff in H; destruct H as [? H]).
  unfold Pallet.setField.
  repeat match goal with E : (_ =? _)%string = false |- _ => rewrite E; clear E end.
  reflexivity.
Qed.

Lemma Pallet_decode_named m p :
  json.decodeMembers Pallet.setField m p
  = json.decodeMembers Pallet.setField (filter (named Pallet_names) m) p.
Proof.
  revert p. induction m as [| [k v] m IH]; intros p; [reflexivity |].
  cbn [filter json.decodeMembers].
  destruct (named Pallet_names (k, v)) eqn:Hn.
  - cbn [json.decodeMembers bind Monad_either].
    destruct (Pallet.setField (json.foldName k) v p) as [e | q]; [reflexivity | apply IH].
  - rewrite (Pallet_setField_other _ _ _ Hn). cbn [bind Monad_either]. apply IH.
Qed.

(** A name is folded as Unicode folds it: the long s stands for an s, the
    Kelvin sign for a k. *)
Example Unmarshal_folds_names :
  Unmarshal
    (text ("{'" +++ long_s +++ "UMMARY':{'total_cartons_pac" +++ kelvin +++ "ed':3},"
           +++ "'Pallet" +++ long_s +++ "':[{'PALLET_ID':7}]}"))
    PackingResponse.zero
  = inr {| PackingResponse.Pallets := Some [Pallet.withPalletID 7 Pallet.zero];
           PackingResponse.Summary :=
             {| PackingSummary.TotalPallets := 0;
                PackingSummary.TotalCartonsPacked := 3;
                PackingSummary.AverageUtilization := 0;
                PackingSummary.ComputationTimeMs := 0 |};
           PackingResponse.Error := "" |}.
Proof. vm_compute. reflexivity. Qed.

(** A member that comes again is stored into what the slice and its array
    hold: the second [pallets] changes the first pallet and cuts the slice
    to one element, the third finds the second pallet of the first beyond
    the length.  After [null] or [[]] the elements are new. *)
Example Unmarshal_repeated_member :
  Unmarshal
    (text ("{'pallets':[{'pallet_id':1},{'pallet_id':2}],"
           +++ "'pallets':[{'total_weight':5}],'pallets':[{},{}]}"))
    PackingResponse.zero
  = inr {| PackingResponse.Pallets :=
             Some [Pallet.withTotalWeight 5.0 (Pallet.withPalletID 1 Pallet.zero);
                   Pallet.withPalletID 2 Pallet.zero];
           PackingResponse.Summary := PackingSummary.zero;
           PackingResponse.Error := "" |} /\
  Unmarshal
    (text "{'pallets':[{'pallet_id':1},{'pallet_id':2}],'pallets':[],'pallets':[{},{}]}")
    PackingResponse.zero
  = inr {| PackingResponse.Pallets := Some [Pallet.zero; Pallet.zero];
           PackingResponse.Summary := PackingSummary.zero;
           PackingResponse.Error := "" |}.
Proof. split; vm_compute; reflexivity. Qed.

(** ** What the specification says of [Pack] *)

(** C1, as the code has it.  When the body of the response decodes to a
    [PackingResponse] with a non-empty [Error], [Pack] returns that response,
    error string and pallets together, if the status is 200; for any other
    status it returns no response, and an error whose text carries the status
    and the error string. *)
Theorem Pack_embedded_error url_Parse c ctx request req resp body response :
  Pack_request url_Parse c ctx request = inr req ->
  Client.httpClient c req = inr resp ->
  http.ReadBody resp = inr body ->
  Unmarshal body PackingResponse.zero = inr response ->
  PackingResponse.Error response <> "" ->
  (http.StatusCode resp = http.StatusOK ->
   Pack url_Parse c ctx request = (Some response, None)) /\
  (http.StatusCode resp <> http.StatusOK ->
   Pack url_Parse c ctx request
   = (None, Some (errorString
                    ("API error (status " +++ strconv.FormatInt (http.StatusCode resp)
                     +++ "): " +++ PackingResponse.Error response)))).
Proof.
  intros Hreq Hdo Hbody Hun Herr.
  unfold Pack, Pack_response. rewrite Hreq, Hdo, Hbody, Hun.
  assert ((PackingResponse.Error response =? "")%string = false) as ->
      by (apply String.eqb_neq; exact Herr).
  split; intros Hstatus.
  - rewrite Hstatus. reflexivity.
  - apply Z.eqb_neq in Hstatus. rewrite Hstatus. reflexivity.
Qed.

(** C1: a server answers 500 with a body that carries one packed pallet and
    an error string; [Pack] returns no response, so the pallet is lost to
    the caller. *)
Lemma Pack_drops_pallets_on_error_status :
  Unmarshal (Encode response_partial) PackingResponse.zero = inr response_partial /\
  PackingResponse.Error response_partial = "carton BIG1 exceeds pallet bounds" /\
  PackingResponse.Pallets response_partial = Some [pallet_TestPack] /\
  Pack accept_url (client_partial 500) context.Background (Some request_TestPack)
  = (None, Some (errorString "API error (status 500): carton BIG1 exceeds pallet bounds")).
Proof. repeat split; vm_compute; reflexivity. Qed.

(** With status 200 the same body comes back whole. *)
Lemma Pack_embedded_error_witness :
  Pack accept_url (client_partial 200) context.Background (Some request_TestPack)
  = (Some response_partial, None).
Proof.
  edestruct (Pack_embedded_error accept_url (client_partial 200) context.Background
               (Some request_TestPack)) as [H _];
    [reflexivity | reflexivity | reflexivity | vm_compute; reflexivity
     | vm_compute; discriminate | apply H; reflexivity].
Defined.

(** C2, as the code has it.  A carton is written with the member names
    id, length, width, height, weight, quantity, fragile, allow_rotation, in
    every body [Pack] sends.  A pallet is read from the members named
    pallet_id, total_weight, total_height, utilization_percentage, cartons
    and center_of_gravity, names compared as [encoding/json] compares them,
    under simple case folding (a letter in either case, U+017F for an s,
    U+212A for a k): every other member is skipped, and each of the six is
    stored in its field, the cartons into the array that the slice has. *)
Theorem Pack_field_names :
  (forall url_Parse c ctx r req,
      Pack_request url_Parse c ctx (Some r) = inr req ->
      exists cartons pallet_constraints packing_options,
        http.Body req
        = json.render
            (json.JObject
               [("cartons", cartons);
                ("pallet_constraints", pallet_constraints);
                ("packing_options", packing_options)]) /\
        List.length (array_elements cartons)
        = List.length (elements (PackingRequest.Cartons r)) /\
        Forall (fun v => field_names v = Carton_names) (array_elements cartons)) /\
  (forall m p,
      Pallet.decode (json.JObject m) p
      = Pallet.decode (json.JObject (filter (named Pallet_names) m)) p) /\
  (forall p v x,
      json.decodeInt v (Pallet.PalletID (Pallet.value p)) = inr x ->
      Pallet.decode (json.JObject [("pallet_id", v)]) p
      = inr (Pallet.update (Pallet.withPalletID x) p)) /\
  (forall p v x,
      json.decodeFloat64 v (Pallet.TotalWeight (Pallet.value p)) = inr x ->
      Pallet.decode (json.JObject [("total_weight", v)]) p
      = inr (Pallet.update (Pallet.withTotalWeight x) p)) /\
  (forall p v x,
      json.decodeFloat64 v (Pallet.TotalHeight (Pallet.value p)) = inr x ->
      Pallet.decode (json.JObject [("total_height", v)]) p
      = inr (Pallet.update (Pallet.withTotalHeight x) p)) /\
  (forall p v x,
      json.decodeFloat64 v (Pallet.UtilizationPercentage (Pallet.value p)) = inr x ->
      Pallet.decode (json.JObject [("utilization_percentage", v)]) p
      = inr (Pallet.update (Pallet.withUtilizationPercentage x) p)) /\
  (forall p v x spare,
      json.decodeSlice PlacedCarton.decode PlacedCarton.zero v
        (Pallet.Cartons (Pallet.value p)) (Pallet.spareCartons p) = inr (x, spare) ->
      Pallet.decode (json.JObject [("cartons", v)]) p
      = inr {| Pallet.value := Pallet.withCartons x (Pallet.value p);
               Pallet.spareCartons := spare |}) /\
  (forall p v x,
      Point3D.decode v (Pallet.CenterOfGravity (Pallet.value p)) = inr x ->
      Pallet.decode (json.JObject [("center_of_gravity", v)]) p
      = inr (Pallet.update (Pallet.withCenterOfGravity x) p)).
Proof.
  split; [| split; [exact Pallet_decode_named |]].
  - intros url_Parse c ctx r req Hreq.
    destruct (Pack_request_inr _ _ _ _ _ Hreq) as (jsonData & Hm & _ & Heq).
    destruct (Marshal_inr _ _ Hm) as (cartons & pc & sp & Hc & _ & Hj).
    exists cartons, pc, (json.JObject [("support_percentage", sp)]).
    split; [rewrite Heq; exact Hj |].
    unfold json.encodeSlice in Hc.
    destruct (PackingRequest.Cartons r) as [l |]; cbn [bind Monad_either ret] in Hc.
    + destruct (json.encodeList Carton.encode l) as [e | vs] eqn:Hl; [discriminate |].
      inversion Hc. exact (encodeList_Carton_names l vs Hl).
    + inversion Hc. split; [reflexivity | constructor].
  - repeat split; intros p v x;
      [| | | | intros spare |]; intros H;
      unfold Pallet.decode, json.decodeStruct; cbn [json.decodeMembers];
      unfold Pallet.setField; eval_foldName; eval_string_eqb;
      cbn [bind Monad_either ret]; rewrite H; reflexivity.
Qed.

(** C2: the carton of [TestPack] goes out with [length], [width], [height]
    and [weight], not [length_mm], [width_mm], [height_mm] and [weight_g];
    and of a pallet sent with [total_weight_g] and [total_height_mm] only
    the [pallet_id] is read. *)
Lemma Pack_names_have_no_unit_suffix :
  Carton.encode carton_TestPack
  = inr (json.JObject
           [("id", json.JString "BOX001");
            ("length", json.JNumber "609.6");
            ("width", json.JNumber "457.2");
            ("height", json.JNumber "406.4");
            ("weight", json.JNumber "18143.68");
            ("quantity", json.JNumber "1");
            ("fragile", json.JBool false);
            ("allow_rotation", json.JBool true)]) /\
  Unmarshal
    (text "{'pallets':[{'pallet_id':1,'total_weight_g':18143.68,'total_height_mm':406.4}]}")
    PackingResponse.zero
  = inr {| PackingResponse.Pallets := Some [Pallet.withPalletID 1 Pallet.zero];
           PackingResponse.Summary := PackingSummary.zero;
           PackingResponse.Error := "" |}.
Proof. split; vm_compute; reflexivity. Qed.

Lemma Pack_field_names_witness :
  exists req,
    Pack_request accept_url client_TestPack context.Background (Some request_TestPack)
    = inr req /\
    exists cartons pallet_constraints packing_options,
      http.Body req
      = json.render
          (json.JObject
             [("cartons", cartons);
              ("pallet_constraints", pallet_constraints);
              ("packing_options", packing_options)]) /\
      List.length (array_elements cartons)
      = List.length (elements (PackingRequest.Cartons request_TestPack)) /\
      Forall (fun v => field_names v = Carton_names) (array_elements cartons).
Proof.
  destruct (Pack_request accept_url client_TestPack context.Background
              (Some request_TestPack)) as [e | req] eqn:H;
    [vm_compute in H; discriminate |].
  exists req. split; [reflexivity |].
  exact (proj1 Pack_field_names accept_url client_TestPack context.Background
           request_TestPack req H).
Defined.

(** C3.  A response that [Pack] returns is the decoding of the body of the
    server's response into a zero [PackingResponse], and nothing else: the
    request was sent, the status was 200, and the error is nil. *)
Theorem Pack_returns_decoded_body url_Parse c ctx request response err :
  Pack url_Parse c ctx request = (Some response, err) ->
  err = None /\
  exists req resp body,
    Pack_request url_Parse c ctx request = inr req /\
    Client.httpClient c req = inr resp /\
    http.StatusCode resp = http.StatusOK /\
    http.ReadBody resp = inr body /\
    Unmarshal body PackingResponse.zero = inr response.
Proof.
  unfold Pack. intros H.
  destruct (Pack_request url_Parse c ctx request) as [e | req]; [discriminate |].
  destruct (Client.httpClient c req) as [e | resp] eqn:Hdo; [discriminate |].
  unfold Pack_response in H.
  destruct (http.ReadBody resp) as [e | body] eqn:Hbody; [discriminate |].
  destruct (Unmarshal body PackingResponse.zero) as [e | r] eqn:Hun; [discriminate |].
  destruct (http.StatusCode resp =? http.StatusOK) eqn:Hstatus; cbn [negb] in H.
  - inversion H; subst. split; [reflexivity |].
    exists req, resp, body. apply Z.eqb_eq in Hstatus. repeat split; assumption.
  - destruct (negb (PackingResponse.Error r =? "")%string); discriminate.
Qed.

Lemma Pack_returns_decoded_body_witness :
  @None error = None /\
  exists req resp body,
    Pack_request accept_url client_TestPack context.Background (Some request_TestPack)
    = inr req /\
    Client.httpClient client_TestPack req = inr resp /\
    http.StatusCode resp = http.StatusOK /\
    http.ReadBody resp = inr body /\
    Unmarshal body PackingResponse.zero = inr response_TestPack.
Proof.
  apply (Pack_returns_decoded_body accept_url client_TestPack context.Background
           (Some request_TestPack) response_TestPack None).
  vm_compute. reflexivity.
Defined.



(** C5, as the code has it.  [Pack] does not look at the range of
    [SupportPercentage]: the [support_percentage] of a body it sends is the
    JSON number written for the request's [SupportPercentage], and a request
    is sent exactly when all its numbers are finite and its URL parses,
    whatever the percentage. *)
Theorem Pack_sends_support_percentage url_Parse c ctx r :
  (forall req,
      Pack_request url_Parse c ctx (Some r) = inr req ->
      exists cartons pallet_constraints support_percentage,
        json.encodeFloat64
          (PackingOptions.SupportPercentage (PackingRequest.PackingOptions r))
        = inr support_percentage /\
        http.Body req
        = json.render
            (json.JObject
               [("cartons", cartons);
                ("pallet_constraints", pallet_constraints);
                ("packing_options",
                 json.JObject [("support_percentage", support_percentage)])])) /\
  ((exists req, Pack_request url_Parse c ctx (Some r) = inr req) <->
   PackingRequest_finite r = true /\
   url_Parse (Client.baseURL c +++ "/api/v1/pack") = None).
Proof.
  split.
  - intros req Hreq.
    destruct (Pack_request_inr _ _ _ _ _ Hreq) as (jsonData & Hm & _ & Heq).
    destruct (Marshal_inr _ _ Hm) as (cartons & pc & sp & _ & Hsp & Hj).
    exists cartons, pc, sp. split; [exact Hsp |]. rewrite Heq. exact Hj.
  - rewrite Pack_request_inr_iff, Marshal_inr_iff. reflexivity.
Qed.

(** C5: requests with a support percentage of 150 and of -5 go out, the
    number in the body as given. *)
Lemma Pack_sends_support_percentage_out_of_range :
  sent_body accept_url client_TestPack context.Background (Some (request_with 150))
  = Some (text ("{'cartons':[{'id':'BOX001','length':609.6,'width':457.2,'height':406.4,"
                +++ "'weight':18143.68,'quantity':1,'fragile':false,'allow_rotation':true}],"
                +++ "'pallet_constraints':{'max_length':1016,'max_width':1828.8,"
                +++ "'max_height':1219.2,'max_weight':680388},"
                +++ "'packing_options':{'support_percentage':150}}")) /\
  sent_body accept_url client_TestPack context.Background (Some (request_with (-5)))
  = Some (text ("{'cartons':[{'id':'BOX001','length':609.6,'width':457.2,'height':406.4,"
                +++ "'weight':18143.68,'quantity':1,'fragile':false,'allow_rotation':true}],"
                +++ "'pallet_constraints':{'max_length':1016,'max_width':1828.8,"
                +++ "'max_height':1219.2,'max_weight':680388},"
                +++ "'packing_options':{'support_percentage':-5}}")) /\
  Pack accept_url client_TestPack context.Background (Some (request_with 150))
  = (Some response_TestPack, None).
Proof. repeat split; vm_compute; reflexivity. Qed.

Lemma Pack_sends_support_percentage_witness :
  exists req,
    Pack_request accept_url client_TestPack context.Background (Some (request_with 150))
    = inr req.
Proof.
  apply (proj2 (Pack_sends_support_percentage accept_url client_TestPack
                  context.Background (request_with 150))).
  split; vm_compute; reflexivity.
Defined.



(** C10.  [Pack] returns a response and a nil error, or a nil response and
    an error, never both and never neither; and a body that
    [json.Unmarshal] refuses makes it return the parse error, whatever the
    status code, because the body is decoded before the status is looked
    at. *)
Theorem Pack_result_xor_error url_Parse c ctx request :
  ((exists response, Pack url_Parse c ctx request = (Some response, None)) \/
   (exists err, Pack url_Parse c ctx request = (None, Some err))) /\
  (forall req resp body err,
      Pack_request url_Parse c ctx request = inr req ->
      Client.httpClient c req = inr resp ->
      http.ReadBody resp = inr body ->
      Unmarshal body PackingResponse.zero = inl err ->
      Pack url_Parse c ctx request
      = (None, Some (wrapError "failed to parse response: " err))).
Proof.
  split; [apply Pack_cases |].
  intros req resp body err Hreq Hdo Hbody Hun.
  unfold Pack, Pack_response. rewrite Hreq, Hdo, Hbody, Hun. reflexivity.
Qed.

Lemma Pack_result_xor_error_witness :
  Pack accept_url client_gateway context.Background (Some request_TestPack)
  = (None, Some (wrapError "failed to parse response: " SyntaxError)).
Proof.
  eapply (proj2 (Pack_result_xor_error accept_url client_gateway context.Background
                   (Some request_TestPack))); reflexivity.
Defined.

(** * Presets and conversions *)

(** In binary64 the conversions round: three inches do not come back. *)
Example float64_round_trip_rounds :
  MMToInches (InchesToMM 3) = 2.9999999999999996%float /\
  InchesToMM 24 = 609.5999999999999%float.
Proof. split; vm_compute; reflexivity. Qed.

(** C8.  In exact arithmetic each conversion undoes its opposite:
    multiplying and dividing by 25.4, and by 453.592. *)
Theorem conversions_are_inverse (x : Q) :
  (Exact.MMToInches (Exact.InchesToMM x) == x)%Q /\
  (Exact.InchesToMM (Exact.MMToInches x) == x)%Q /\
  (Exact.GramsToPounds (Exact.PoundsToGrams x) == x)%Q /\
  (Exact.PoundsToGrams (Exact.GramsToPounds x) == x)%Q.
Proof.
  unfold Exact.MMToInches, Exact.InchesToMM, Exact.GramsToPounds, Exact.PoundsToGrams.
  repeat split; field; discriminate.
Qed.

(** C9, as the code has it.  The presets hold the literals of the source;
    each is the binary64 nearest to the exact conversion of the documented
    size.  Computed in binary64, [InchesToMM(40)], [InchesToMM(72)] and
    [PoundsToGrams(1500)] are those numbers, and [InchesToMM(48)] is the
    binary64 just below 1219.2. *)
Theorem StandardPallet_values :
  StandardPallet
  = {| PalletConstraints.MaxLength := 1016.0; PalletConstraints.MaxWidth := 1828.8;
       PalletConstraints.MaxHeight := 1219.2; PalletConstraints.MaxWeight := 680388.0 |} /\
  StandardPallet4048
  = {| PalletConstraints.MaxLength := 1016.0; PalletConstraints.MaxWidth := 1219.2;
       PalletConstraints.MaxHeight := 1219.2; PalletConstraints.MaxWeight := 680388.0 |} /\
  ((Exact.InchesToMM 40 == 1016)%Q /\ (Exact.InchesToMM 72 == 18288 # 10)%Q /\
   (Exact.InchesToMM 48 == 12192 # 10)%Q /\ (Exact.PoundsToGrams 1500 == 680388)%Q) /\
  (PalletConstraints.MaxLength StandardPallet = float64_of_Q (Exact.InchesToMM 40) /\
   PalletConstraints.MaxWidth StandardPallet = float64_of_Q (Exact.InchesToMM 72) /\
   PalletConstraints.MaxHeight StandardPallet = float64_of_Q (Exact.InchesToMM 48) /\
   PalletConstraints.MaxWeight StandardPallet = float64_of_Q (Exact.PoundsToGrams 1500) /\
   PalletConstraints.MaxWidth StandardPallet4048 = float64_of_Q (Exact.InchesToMM 48)) /\
  (InchesToMM 40 = PalletConstraints.MaxLength StandardPallet /\
   InchesToMM 72 = PalletConstraints.MaxWidth StandardPallet /\
   PoundsToGrams 1500 = PalletConstraints.MaxWeight StandardPallet /\
   InchesToMM 48 = PrimFloat.next_down (PalletConstraints.MaxHeight StandardPallet)).
Proof. repeat split; vm_compute; reflexivity. Qed.

(** C9: in binary64 [InchesToMM(48)] is 1219.1999999999998, and Go's [==]
    tells it from the 1219.2 that both presets hold. *)
Lemma InchesToMM_48_is_below_the_preset :
  InchesToMM 48 = 1219.1999999999998%float /\
  PalletConstraints.MaxHeight StandardPallet = 1219.2%float /\
  PrimFloat.eqb (InchesToMM 48) (PalletConstraints.MaxHeight StandardPallet) = false /\
  PrimFloat.eqb (InchesToMM 48) (PalletConstraints.MaxWidth StandardPallet4048) = false.
Proof. repeat split; vm_compute; reflexivity. Qed.

(** * More of the code

    Properties of [Pack] beyond the specification, then [Health] and
    [Metrics], the decoders of the response, and the conversions in
    binary64. *)

(** ** Lemmas *)

(** The request [Pack] builds depends on the client through its base URL
    only. *)
Lemma Pack_request_baseURL url_Parse c1 c2 ctx request :
  Client.baseURL c1 = Client.baseURL c2 ->
  Pack_request url_Parse c1 ctx request = Pack_request url_Parse c2 ctx request.
Proof. unfold Pack_request. intros ->. reflexivity. Qed.

(** A float64 compares equal to itself unless it is NaN. *)
Lemma SFeqb_refl x : x <> S754_nan -> SFeqb x x = true.
Proof.
  unfold SFeqb, SFcompare. destruct x as [s | s | | s m e]; intros H;
    try (destruct s; reflexivity); [congruence |].
  change (Pos.compare_cont Eq m m) with (Pos.compare m m).
  destruct s; rewrite Z.compare_refl, Pos.compare_refl; reflexivity.
Qed.

(** What [strconv] prints for a float64 that is not finite. *)
Lemma FormatFloat_not_finite f :
  finite f = false -> In (strconv.FormatFloat f false) ["NaN"; "+Inf"; "-Inf"].
Proof.
  unfold finite, strconv.FormatFloat. intros H.
  apply negb_false_iff, orb_true_iff in H.
  destruct (Prim2SF f) as [s | s | | s m e] eqn:Hf.
  - exfalso. destruct H as [H | H].
    + unfold PrimFloat.is_nan in H. rewrite FloatAxioms.eqb_spec, Hf in H. destruct s; discriminate.
    + unfold PrimFloat.is_infinity in H. rewrite FloatAxioms.eqb_spec, FloatAxioms.abs_spec, Hf in H. discriminate.
  - destruct s; simpl; auto.
  - simpl; auto.
  - exfalso. destruct H as [H | H].
    + unfold PrimFloat.is_nan in H. rewrite FloatAxioms.eqb_spec, Hf, SFeqb_refl in H;
        [discriminate | discriminate].
    + unfold PrimFloat.is_infinity in H. rewrite FloatAxioms.eqb_spec, FloatAxioms.abs_spec, Hf in H. discriminate.
Qed.

Lemma encodeFloat64_inl f e :
  json.encodeFloat64 f = inl e ->
  finite f = false /\ e = UnsupportedValueError (strconv.FormatFloat f false).
Proof.
  unfold finite, json.encodeFloat64.
  destruct (PrimFloat.is_nan f || PrimFloat.is_infinity f); [| discriminate].
  intros H. inversion H. split; reflexivity.
Qed.

Lemma encodeFloat64_unsupported f e : json.encodeFloat64 f = inl e -> unsupported e.
Proof.
  intros H. apply encodeFloat64_inl in H. destruct H as [Hf ->].
  eexists. split; [apply FormatFloat_not_finite, Hf | reflexivity].
Qed.

(** An encoder of floats fails with the error of the first float it cannot
    write. *)
Ltac encoder_error :=
  cbn [bind Monad_either ret];
  repeat next_float;
  intros H; inversion H; subst;
  eapply encodeFloat64_unsupported; eassumption.

Lemma Carton_encode_inl c e : Carton.encode c = inl e -> unsupported e.
Proof. unfold Carton.encode. encoder_error. Qed.

Lemma encodeList_Carton_inl l e :
  json.encodeList Carton.encode l = inl e -> unsupported e.
Proof.
  induction l as [| c l IH]; cbn [json.encodeList bind Monad_either ret];
    [discriminate |].
  destruct (Carton.encode c) as [e1 | v] eqn:Hc.
  - intros H. inversion H. subst. exact (Carton_encode_inl c e Hc).
  - destruct (json.encodeList Carton.encode l) as [e2 | vs]; [| discriminate].
    intros H. inversion H. subst. apply IH. reflexivity.
Qed.

Lemma PalletConstraints_encode_inl p e : PalletConstraints.encode p = inl e -> unsupported e.
Proof. unfold PalletConstraints.encode. encoder_error. Qed.

Lemma Marshal_inl request e : Marshal request = inl e -> unsupported e.
Proof.
  destruct request as [r |]; [| discriminate].
  unfold Marshal, PackingRequest.encode, PackingOptions.encode, json.encodeSlice.
  cbn [bind Monad_either ret].
  destruct (PackingRequest.Cartons r) as [l |]; cbn [bind Monad_either ret].
  - destruct (json.encodeList Carton.encode l) as [e1 | vs] eqn:Hl.
    + intros H. inversion H. subst. exact (encodeList_Carton_inl l e Hl).
    + destruct (PalletConstraints.encode (PackingRequest.PalletConstraints r))
        as [e2 | pc] eqn:Hp.
      * intros H. inversion H. subst. exact (PalletConstraints_encode_inl _ e Hp).
      * encoder_error.
  - destruct (PalletConstraints.encode (PackingRequest.PalletConstraints r))
      as [e2 | pc] eqn:Hp.
    + intros H. inversion H. subst. exact (PalletConstraints_encode_inl _ e Hp).
    + encoder_error.
Qed.

(** ** [Pack]: before the exchange *)

(** X1.  [Pack] makes at most one HTTP exchange, of the request it built:
    two clients with the same base URL that answer that request alike make
    [Pack] return the same, whatever else they would answer. *)
Theorem Pack_one_exchange url_Parse c1 c2 ctx request :
  Client.baseURL c1 = Client.baseURL c2 ->
  (forall req,
      Pack_request url_Parse c1 ctx request = inr req ->
      Client.httpClient c1 req = Client.httpClient c2 req) ->
  Pack url_Parse c1 ctx request = Pack url_Parse c2 ctx request.
Proof.
  intros Hbase Hsame. unfold Pack.
  rewrite <- (Pack_request_baseURL url_Parse c1 c2 ctx request Hbase).
  destruct (Pack_request url_Parse c1 ctx request) as [e | req]; [reflexivity |].
  rewrite (Hsame req eq_refl). reflexivity.
Qed.

Lemma routed_answers_pack req :
  Pack_request accept_url client_TestPack context.Background (Some request_TestPack)
  = inr req ->
  Client.httpClient client_TestPack req = Client.httpClient client_routed req.
Proof.
  intros H. apply Pack_request_inr in H. destruct H as (j & _ & _ & ->). reflexivity.
Qed.

Lemma Pack_one_exchange_witness :
  Pack accept_url client_TestPack context.Background (Some request_TestPack)
  = Pack accept_url client_routed context.Background (Some request_TestPack).
Proof.
  apply (Pack_one_exchange accept_url client_TestPack client_routed context.Background
           (Some request_TestPack) eq_refl routed_answers_pack).
Defined.

(** X2.  A request with a NaN or an infinite number is not sent: [Pack]
    returns the error of [json.Marshal], an [UnsupportedValueError] that
    names the value, wrapped as "failed to marshal request", for every
    client, URL and context.  A request that is written but whose URL
    [net/url] refuses is not sent either, and the parse error comes back
    wrapped as "failed to create request". *)
Theorem Pack_fails_before_exchange r :
  (PackingRequest_finite r = false ->
   exists str,
     In str ["NaN"; "+Inf"; "-Inf"] /\
     forall url_Parse c ctx,
       Pack url_Parse c ctx (Some r)
       = (None, Some (wrapError "failed to marshal request: " (UnsupportedValueError str)))) /\
  (forall url_Parse c ctx err,
      PackingRequest_finite r = true ->
      url_Parse (Client.baseURL c +++ "/api/v1/pack") = Some err ->
      Pack url_Parse c ctx (Some r)
      = (None, Some (wrapError "failed to create request: " err))).
Proof.
  split.
  - intros Hfin.
    destruct (Marshal (Some r)) as [e | j] eqn:Hm.
    + destruct (Marshal_inl _ _ Hm) as (str & Hin & ->).
      exists str. split; [exact Hin |].
      intros url_Parse c ctx. unfold Pack, Pack_request. rewrite Hm. reflexivity.
    + assert (PackingRequest_finite r = true) as Ht
          by (apply Marshal_inr_iff; exists j; exact Hm).
      congruence.
  - intros url_Parse c ctx err Hfin Hurl.
    apply Marshal_inr_iff in Hfin. destruct Hfin as [j Hm].
    unfold Pack, Pack_request, NewRequestWithContext. rewrite Hm, Hurl. reflexivity.
Qed.

Lemma Pack_fails_before_exchange_witness :
  exists str,
    In str ["NaN"; "+Inf"; "-Inf"] /\
    forall url_Parse c ctx,
      Pack url_Parse c ctx (Some request_NaN)
      = (None, Some (wrapError "failed to marshal request: " (UnsupportedValueError str))).
Proof.
  apply (proj1 (Pack_fails_before_exchange request_NaN)). vm_compute. reflexivity.
Defined.

(** ** [Pack]: the exchange and the answer *)

(** X3.  An exchange that fails, in [Do] or while the body is read, makes
    [Pack] return no response and an error that wraps the failure:
    [errors.Unwrap] gives it back, and [errors.Is] finds in the result
    whatever it finds in the failure, a deadline as well as a
    cancellation. *)
Theorem Pack_keeps_transport_error url_Parse c ctx request req err :
  Pack_request url_Parse c ctx request = inr req ->
  (Client.httpClient c req = inl err \/
   exists resp, Client.httpClient c req = inr resp /\ http.ReadBody resp = inl err) ->
  exists e,
    Pack url_Parse c ctx request = (None, Some e) /\
    Unwrap e = Some err /\
    forall target, errors_Is err target = true -> errors_Is e target = true.
Proof.
  intros Hreq [Hdo | (resp & Hdo & Hbody)]; unfold Pack; rewrite Hreq, Hdo.
  - eexists. split; [reflexivity |]. split; [reflexivity |].
    intros target. apply errors_Is_wrapError.
  - unfold Pack_response. rewrite Hbody.
    eexists. split; [reflexivity |]. split; [reflexivity |].
    intros target. apply errors_Is_wrapError.
Qed.

Lemma Pack_keeps_transport_error_witness :
  exists e,
    Pack accept_url client_timeout context.Background (Some request_TestPack)
    = (None, Some e) /\
    errors_Is e DeadlineExceeded = true.
Proof.
  destruct (Pack_request accept_url client_timeout context.Background
              (Some request_TestPack)) as [e0 | req] eqn:Hreq;
    [vm_compute in Hreq; discriminate |].
  destruct (Pack_keeps_transport_error accept_url client_timeout context.Background
              (Some request_TestPack) req
              (urlError "Post" (http.URL req) DeadlineExceeded) Hreq
              (or_introl eq_refl)) as (e & Hp & _ & His).
  exists e. split; [exact Hp |]. apply His. vm_compute. reflexivity.
Defined.

(** X4.  [Pack] returns a response exactly when the request was sent, the
    exchange succeeded with status 200, the body was read, and the body
    decodes; the response is then that decoding. *)
Theorem Pack_returns_response_iff url_Parse c ctx request response :
  Pack url_Parse c ctx request = (Some response, None) <->
  exists req resp body,
    Pack_request url_Parse c ctx request = inr req /\
    Client.httpClient c req = inr resp /\
    http.StatusCode resp = http.StatusOK /\
    http.ReadBody resp = inr body /\
    Unmarshal body PackingResponse.zero = inr response.
Proof.
  unfold Pack. split.
  - intros H.
    destruct (Pack_request url_Parse c ctx request) as [e | req]; [discriminate |].
    destruct (Client.httpClient c req) as [e | resp] eqn:Hdo; [discriminate |].
    unfold Pack_response in H.
    destruct (http.ReadBody resp) as [e | body] eqn:Hbody; [discriminate |].
    destruct (Unmarshal body PackingResponse.zero) as [e | r] eqn:Hun; [discriminate |].
    destruct (http.StatusCode resp =? http.StatusOK) eqn:Hstatus; cbn [negb] in H.
    + inversion H; subst. exists req, resp, body.
      apply Z.eqb_eq in Hstatus. repeat split; assumption.
    + destruct (negb (PackingResponse.Error r =? "")%string); discriminate.
  - intros (req & resp & body & Hreq & Hdo & Hstatus & Hbody & Hun).
    unfold Pack_response. rewrite Hreq, Hdo, Hbody, Hun, Hstatus. reflexivity.
Qed.

Lemma Pack_returns_response_iff_witness :
  Pack accept_url client_TestPack context.Background (Some request_TestPack)
  = (Some response_TestPack, None).
Proof.
  apply (proj2 (Pack_returns_response_iff accept_url client_TestPack context.Background
                  (Some request_TestPack) response_TestPack)).
  do 3 eexists. repeat split; vm_compute; reflexivity.
Defined.

(** X5.  For a status other than 200 [Pack] returns no response, whatever
    the body; and when the body decodes without an [error] string, the
    error text gives the status and the whole body. *)
Theorem Pack_refuses_other_status url_Parse c ctx request req resp :
  Pack_request url_Parse c ctx request = inr req ->
  Client.httpClient c req = inr resp ->
  http.StatusCode resp <> http.StatusOK ->
  (exists e, Pack url_Parse c ctx request = (None, Some e)) /\
  (forall body response,
      http.ReadBody resp = inr body ->
      Unmarshal body PackingResponse.zero = inr response ->
      PackingResponse.Error response = "" ->
      Pack url_Parse c ctx request
      = (None, Some (errorString
                       ("API returned status " +++ strconv.FormatInt (http.StatusCode resp)
                        +++ ": " +++ body)))).
Proof.
  intros Hreq Hdo Hstatus. apply Z.eqb_neq in Hstatus.
  unfold Pack, Pack_response. rewrite Hreq, Hdo, Hstatus. cbn [negb]. split.
  - destruct (http.ReadBody resp) as [e | body]; [eexists; reflexivity |].
    destruct (Unmarshal body PackingResponse.zero) as [e | r]; [eexists; reflexivity |].
    destruct (negb (PackingResponse.Error r =? "")%string); eexists; reflexivity.
  - intros body response Hbody Hun Herr. rewrite Hbody, Hun, Herr. reflexivity.
Qed.

Lemma Pack_refuses_other_status_witness :
  Pack accept_url client_not_found context.Background (Some request_TestPack)
  = (None, Some (errorString ("API returned status 404: " +++ text "{'message':'not found'}"))).
Proof.
  destruct (Pack_request accept_url client_not_found context.Background
              (Some request_TestPack)) as [e0 | req] eqn:Hreq;
    [vm_compute in Hreq; discriminate |].
  pose proof (Pack_refuses_other_status accept_url client_not_found context.Background
                (Some request_TestPack) req
                {| http.StatusCode := 404;
                   http.ReadBody := inr (text "{'message':'not found'}") |}) as T.
  rewrite Hreq in T.
  destruct (T eq_refl eq_refl) as [_ H]; [discriminate |].
  eapply H; vm_compute; reflexivity.
Defined.

(** X6.  The errors of [Pack] are of seven kinds, told apart by how they
    begin: four wrap the error of a step (marshal, create, send, read), one
    wraps the error of the decoder, and two are texts that give the status
    of an answer other than 200, with the server's [error] string or with
    the body. *)
Theorem Pack_error_kinds url_Parse c ctx request e :
  Pack url_Parse c ctx request = (None, Some e) ->
  (exists err, unsupported err /\ e = wrapError "failed to marshal request: " err) \/
  (exists err, e = wrapError "failed to create request: " err) \/
  (exists err, e = wrapError "failed to send request: " err) \/
  (exists err, e = wrapError "failed to read response: " err) \/
  (exists err, e = wrapError "failed to parse response: " err) \/
  (exists status msg,
      status <> http.StatusOK /\ msg <> "" /\
      e = errorString ("API error (status " +++ strconv.FormatInt status +++ "): " +++ msg)) \/
  (exists status body,
      status <> http.StatusOK /\
      e = errorString ("API returned status " +++ strconv.FormatInt status +++ ": " +++ body)).
Proof.
  unfold Pack, Pack_request, NewRequestWithContext.
  destruct (Marshal request) as [e1 | j] eqn:Hm.
  { intros H. inversion H. left. exists e1. split; [exact (Marshal_inl _ _ Hm) | reflexivity]. }
  destruct (url_Parse _) as [e2 |].
  { intros H. inversion H. right; left. eexists. reflexivity. }
  destruct (Client.httpClient c _) as [e3 | resp].
  { intros H. inversion H. do 2 right; left. eexists. reflexivity. }
  unfold Pack_response.
  destruct (http.ReadBody resp) as [e4 | body].
  { intros H. inversion H. do 3 right; left. eexists. reflexivity. }
  destruct (Unmarshal body PackingResponse.zero) as [e5 | r].
  { intros H. inversion H. do 4 right; left. eexists. reflexivity. }
  destruct (http.StatusCode resp =? http.StatusOK) eqn:Hstatus; cbn [negb];
    [discriminate |].
  apply Z.eqb_neq in Hstatus.
  destruct (PackingResponse.Error r =? "")%string eqn:Herr; cbn [negb];
    intros H; inversion H.
  - do 6 right. exists (http.StatusCode resp), body. split; [exact Hstatus | reflexivity].
  - do 5 right; left. apply String.eqb_neq in Herr.
    exists (http.StatusCode resp), (PackingResponse.Error r). repeat split; assumption.
Qed.

Lemma Pack_error_kinds_witness :
  let e := wrapError "failed to parse response: " SyntaxError in
  (exists err, unsupported err /\ e = wrapError "failed to marshal request: " err) \/
  (exists err, e = wrapError "failed to create request: " err) \/
  (exists err, e = wrapError "failed to send request: " err) \/
  (exists err, e = wrapError "failed to read response: " err) \/
  (exists err, e = wrapError "failed to parse response: " err) \/
  (exists status msg,
      status <> http.StatusOK /\ msg <> "" /\
      e = errorString ("API error (status " +++ strconv.FormatInt status +++ "): " +++ msg)) \/
  (exists status body,
      status <> http.StatusOK /\
      e = errorString ("API returned status " +++ strconv.FormatInt status +++ ": " +++ body)).
Proof.
  apply (Pack_error_kinds accept_url client_gateway context.Background
           (Some request_TestPack)).
  vm_compute. reflexivity.
Defined.

(** The members of the request that was written. *)
Ltac pick_members H :=
  match type of H with
  | inr (json.render
           (json.JObject
              [(_, ?cs); (_, json.JObject [(_, ?a); (_, ?b); (_, ?h); (_, ?w)]);
               (_, json.JObject [(_, ?sp)])])) = _ =>
      exists cs, a, b, h, w, sp
  end.

(** X7.  The body of every request [Pack] sends is one object with the
    members [cartons], [pallet_constraints] and [packing_options], in this
    order; the pallet constraints are written under [max_length],
    [max_width], [max_height] and [max_weight].  A nil slice of cartons is
    written [null], an empty one [[]], and a slice of [n] cartons an array of
    [n] objects. *)
Theorem Pack_body_shape url_Parse c ctx r req :
  Pack_request url_Parse c ctx (Some r) = inr req ->
  exists cartons max_length max_width max_height max_weight support_percentage,
    http.Body req
    = json.render
        (json.JObject
           [("cartons", cartons);
            ("pallet_constraints",
             json.JObject
               [("max_length", max_length); ("max_width", max_width);
                ("max_height", max_height); ("max_weight", max_weight)]);
            ("packing_options",
             json.JObject [("support_percentage", support_percentage)])]) /\
    json.encodeFloat64 (PalletConstraints.MaxLength (PackingRequest.PalletConstraints r))
    = inr max_length /\
    json.encodeFloat64 (PalletConstraints.MaxWidth (PackingRequest.PalletConstraints r))
    = inr max_width /\
    json.encodeFloat64 (PalletConstraints.MaxHeight (PackingRequest.PalletConstraints r))
    = inr max_height /\
    json.encodeFloat64 (PalletConstraints.MaxWeight (PackingRequest.PalletConstraints r))
    = inr max_weight /\
    match PackingRequest.Cartons r with
    | None => cartons = json.JNull
    | Some l =>
        exists vs,
          cartons = json.JArray vs /\
          List.length vs = List.length l /\
          Forall (fun v => field_names v = Carton_names) vs
    end.
Proof.
  intros Hreq.
  destruct (Pack_request_inr _ _ _ _ _ Hreq) as (jsonData & Hm & _ & ->).
  cbn [http.Body]. revert Hm.
  unfold Marshal, PackingRequest.encode, PalletConstraints.encode, PackingOptions.encode,
    json.encodeSlice.
  cbn [bind Monad_either ret].
  destruct (PackingRequest.Cartons r) as [l |]; cbn [bind Monad_either ret].
  - destruct (json.encodeList Carton.encode l) as [e | vs] eqn:Hl; [discriminate |].
    repeat next_float; try discriminate.
    intros H. pick_members H.
    split; [congruence |]. repeat (split; [reflexivity |]).
    exists vs. split; [reflexivity |]. exact (encodeList_Carton_names l vs Hl).
  - repeat next_float; try discriminate.
    intros H. pick_members H.
    split; [congruence |]. repeat (split; [reflexivity |]). reflexivity.
Qed.

Lemma Pack_body_shape_witness :
  sent_body accept_url client_TestPack context.Background (Some (request_cartons None))
  = Some (text ("{'cartons':null,'pallet_constraints':{'max_length':1016,"
                +++ "'max_width':1828.8,'max_height':1219.2,'max_weight':680388},"
                +++ "'packing_options':{'support_percentage':80}}")) /\
  sent_body accept_url client_TestPack context.Background (Some (request_cartons (Some [])))
  = Some (text ("{'cartons':[],'pallet_constraints':{'max_length':1016,"
                +++ "'max_width':1828.8,'max_height':1219.2,'max_weight':680388},"
                +++ "'packing_options':{'support_percentage':80}}")).
Proof.
  split; unfold sent_body.
  - destruct (Pack_request accept_url client_TestPack context.Background
                (Some (request_cartons None))) as [e | req] eqn:Hreq;
      [vm_compute in Hreq; discriminate |].
    destruct (Pack_body_shape _ _ _ _ _ Hreq)
      as (cs & a & b & h & w & sp & Hb & Ha & Hb' & Hh & Hw & Hc).
    cbn [request_cartons PackingRequest.Cartons] in Hc. subst cs.
    apply Pack_request_inr in Hreq. destruct Hreq as (j & Hm & _ & ->).
    vm_compute in Hm. inversion Hm. vm_compute. reflexivity.
  - vm_compute. reflexivity.
Defined.

(** ** What a decoded response holds *)

(** The errors of the decoders are type errors: the text was checked before
    it is stored. *)
Lemma decodeInt_errors v cur e : json.decodeInt v cur = inl e -> type_error e.
Proof.
  unfold json.decodeInt. destruct v; try (intros [= <-]; eexists; reflexivity).
  destruct (strconv.ParseInt literal); intros [= <-]. eexists. reflexivity.
Qed.

Lemma decodeFloat64_errors v cur e : json.decodeFloat64 v cur = inl e -> type_error e.
Proof.
  unfold json.decodeFloat64. destruct v; try (intros [= <-]; eexists; reflexivity).
  destruct (strconv.ParseFloat literal); intros [= <-]. eexists. reflexivity.
Qed.

Lemma decodeString_errors v cur e : json.decodeString v cur = inl e -> type_error e.
Proof.
  unfold json.decodeString. destruct v; intros [= <-]; eexists; reflexivity.
Qed.

Lemma decodeUint32_errors v cur e : decodeUint32 v cur = inl e -> type_error e.
Proof.
  unfold decodeUint32. destruct v; try (intros [= <-]; eexists; reflexivity).
  destruct (ParseUint literal) as [n |]; [destruct (n <? 2 ^ 32) |];
    intros [= <-]; eexists; reflexivity.
Qed.

Lemma decodeMembers_errors {A : Type} (set : string -> json.value -> A -> result A) :
  (forall k v a e, set k v a = inl e -> type_error e) ->
  forall m a e, json.decodeMembers set m a = inl e -> type_error e.
Proof.
  intros Hset. induction m as [| [k v] m IH]; intros a e;
    cbn [json.decodeMembers bind Monad_either ret]; [discriminate |].
  destruct (set (json.foldName k) v a) as [e' | b] eqn:Hb.
  - intros [= <-]. exact (Hset _ _ _ _ Hb).
  - apply IH.
Qed.

Lemma decodeStruct_errors {A : Type} (set : string -> json.value -> A -> result A) :
  (forall k v a e, set k v a = inl e -> type_error e) ->
  forall v a e, json.decodeStruct set v a = inl e -> type_error e.
Proof.
  intros Hset v a e. unfold json.decodeStruct.
  destruct v; try (intros [= <-]; eexists; reflexivity).
  apply (decodeMembers_errors set Hset).
Qed.

Lemma decodeArray_errors {A : Type} (dec : json.value -> A -> result A) (zero : A) :
  (forall v a e, dec v a = inl e -> type_error e) ->
  forall l old e, json.decodeArray dec zero l old = inl e -> type_error e.
Proof.
  intros Hdec. induction l as [| v l IH]; intros old e;
    cbn [json.decodeArray bind Monad_either ret]; [discriminate |].
  destruct (dec v (hd zero old)) as [e' | x] eqn:Hx.
  - intros [= <-]. exact (Hdec _ _ _ Hx).
  - destruct (json.decodeArray dec zero l (tl old)) as [e' | xs] eqn:Hxs; [| discriminate].
    intros [= <-]. exact (IH _ _ Hxs).
Qed.

Lemma decodeSlice_errors {A : Type} (dec : json.value -> A -> result A) (zero : A) :
  (forall v a e, dec v a = inl e -> type_error e) ->
  forall v cur spare e, json.decodeSlice dec zero v cur spare = inl e -> type_error e.
Proof.
  intros Hdec v cur spare e. unfold json.decodeSlice.
  destruct v; try (intros [= <-]; eexists; reflexivity).
  destruct elems as [| x l]; [discriminate |].
  cbn [bind Monad_either ret].
  destruct (json.decodeArray dec zero (x :: l) _) as [e' | xs] eqn:Hxs; [| discriminate].
  intros [= <-]. exact (decodeArray_errors dec zero Hdec _ _ _ Hxs).
Qed.

(** Case analysis on the name of a member, then on its decoder. *)
Ltac by_field :=
  repeat match goal with
         | |- context [if (?a =? ?b)%string then _ else _] => destruct (a =? b)%string
         end;
  cbn [bind Monad_either ret];
  try match goal with
      | |- context [match ?d with inl _ => _ | inr _ => _ end] =>
          let E := fresh "E" in destruct d eqn:E; [| discriminate]
      end;
  try discriminate;
  intros [= <-].

Lemma Point3D_errors v a e : Point3D.decode v a = inl e -> type_error e.
Proof.
  apply decodeStruct_errors. clear. intros k v a e. unfold Point3D.setField.
  by_field; eauto using decodeFloat64_errors.
Qed.

Lemma Dimensions_errors v a e : Dimensions.decode v a = inl e -> type_error e.
Proof.
  apply decodeStruct_errors. clear. intros k v a e. unfold Dimensions.setField.
  by_field; eauto using decodeFloat64_errors.
Qed.

Lemma PlacedCarton_errors v a e : PlacedCarton.decode v a = inl e -> type_error e.
Proof.
  apply decodeStruct_errors. clear. intros k v a e. unfold PlacedCarton.setField.
  by_field;
    eauto using decodeFloat64_errors, decodeString_errors, Point3D_errors, Dimensions_errors.
Qed.

Lemma Pallet_setField_errors k v a e : Pallet.setField k v a = inl e -> type_error e.
Proof.
  unfold Pallet.setField.
  by_field; eauto using decodeInt_errors, decodeFloat64_errors, Point3D_errors.
  eapply decodeSlice_errors; [| eassumption]. exact PlacedCarton_errors.
Qed.

Lemma Pallet_errors v a e : Pallet.decode v a = inl e -> type_error e.
Proof. apply decodeStruct_errors. exact Pallet_setField_errors. Qed.

Lemma PackingSummary_setField_errors k v a e :
  PackingSummary.setField k v a = inl e -> type_error e.
Proof.
  unfold PackingSummary.setField.
  by_field; eauto using decodeInt_errors, decodeFloat64_errors.
Qed.

Lemma PackingSummary_errors v a e : PackingSummary.decode v a = inl e -> type_error e.
Proof. apply decodeStruct_errors. exact PackingSummary_setField_errors. Qed.

Lemma PackingResponse_setField_errors k v a e :
  PackingResponse.setField k v a = inl e -> type_error e.
Proof.
  unfold PackingResponse.setField.
  by_field; eauto using decodeString_errors, PackingSummary_errors.
  eapply decodeSlice_errors; [| eassumption]. exact Pallet_errors.
Qed.

Lemma MetricsResponse_setField_errors k v a e :
  MetricsResponse.setField k v a = inl e -> type_error e.
Proof.
  unfold MetricsResponse.setField.
  by_field;
    eauto using decodeInt_errors, decodeFloat64_errors, decodeString_errors,
      decodeUint32_errors.
Qed.

(** A member that no destination accepts makes the decoding of the object
    fail, at that member or before. *)
Lemma decodeMembers_refuses {A : Type} (set : string -> json.value -> A -> result A)
  (m : list (string * json.value)) k v :
  (forall k v a e, set k v a = inl e -> type_error e) ->
  In (k, v) m ->
  (forall a, exists e, set (json.foldName k) v a = inl e) ->
  forall a, exists what, json.decodeMembers set m a = inl (UnmarshalTypeError what).
Proof.
  intros Hset Hin Hbad. induction m as [| [k' v'] m IH]; intros a; [destruct Hin |].
  cbn [json.decodeMembers bind Monad_either ret].
  destruct (set (json.foldName k') v' a) as [e | b] eqn:Hb.
  - destruct (Hset _ _ _ _ Hb) as [what ->]. exists what. reflexivity.
  - destruct Hin as [[= -> ->] | Hin]; [| exact (IH Hin b)].
    destruct (Hbad a) as [e He]. congruence.
Qed.

Lemma decodeArray_refuses {A : Type} (dec : json.value -> A -> result A) (zero : A)
  (l : list json.value) v :
  (forall v a e, dec v a = inl e -> type_error e) ->
  In v l ->
  (forall a, exists e, dec v a = inl e) ->
  forall old, exists what, json.decodeArray dec zero l old = inl (UnmarshalTypeError what).
Proof.
  intros Hdec Hin Hbad. induction l as [| v' l IH]; intros old; [destruct Hin |].
  cbn [json.decodeArray bind Monad_either ret].
  destruct (dec v' (hd zero old)) as [e | x] eqn:Hx.
  - destruct (Hdec _ _ _ Hx) as [what ->]. exists what. reflexivity.
  - destruct Hin as [-> | Hin].
    + destruct (Hbad (hd zero old)) as [e He]. congruence.
    + destruct (IH Hin (tl old)) as [what ->]. exists what. reflexivity.
Qed.

(** The comparisons of [setField] for a member whose name folds to that of
    [tag]. *)
Ltac at_field H :=
  rewrite H; eval_foldName; eval_string_eqb; cbn [bind Monad_either ret].

(** What the decoder of an [int] refuses, it refuses whatever the field
    holds. *)
Lemma decodeInt_refuses v e cur :
  json.decodeInt v 0 = inl e -> json.decodeInt v cur = inl e.
Proof.
  unfold json.decodeInt. destruct v; try (intros H; exact H).
  discriminate.
Qed.

Lemma PackingSummary_refuses tag ms s :
  In tag ["total_pallets"; "total_cartons_packed"; "computation_time_ms"] ->
  bad_int tag ms ->
  exists what, PackingSummary.decode (json.JObject ms) s = inl (UnmarshalTypeError what).
Proof.
  intros Htag (k & v & e & Hin & Hk & Hv).
  unfold PackingSummary.decode, json.decodeStruct.
  apply (decodeMembers_refuses PackingSummary.setField ms k v
           PackingSummary_setField_errors Hin).
  intros a. unfold PackingSummary.setField.
  destruct Htag as [<- | [<- | [<- | []]]]; at_field Hk;
    rewrite (decodeInt_refuses _ _ _ Hv); eexists; reflexivity.
Qed.

Lemma Pallet_refuses mp p :
  bad_int "pallet_id" mp ->
  exists what, Pallet.decode (json.JObject mp) p = inl (UnmarshalTypeError what).
Proof.
  intros (k & v & e & Hin & Hk & Hv).
  unfold Pallet.decode, json.decodeStruct.
  apply (decodeMembers_refuses Pallet.setField mp k v Pallet_setField_errors Hin).
  intros a. unfold Pallet.setField. at_field Hk.
  rewrite (decodeInt_refuses _ _ _ Hv). eexists. reflexivity.
Qed.

Lemma PackingResponse_refuses v r :
  PackingResponse_bad_int v ->
  exists what, PackingResponse.decode v r = inl (UnmarshalTypeError what).
Proof.
  intros (m & -> & [(k & ms & tag & Hin & Hk & Htag & Hbad) | (k & l & mp & Hin & Hk & Hl & Hbad)]);
    unfold PackingResponse.decode, json.decodeStruct.
  - apply (decodeMembers_refuses PackingResponse.setField m k (json.JObject ms)
             PackingResponse_setField_errors Hin).
    intros a. unfold PackingResponse.setField. at_field Hk.
    destruct (PackingSummary_refuses tag ms (PackingResponse.memSummary a) Htag Hbad)
      as [what ->].
    eexists. reflexivity.
  - apply (decodeMembers_refuses PackingResponse.setField m k (json.JArray l)
             PackingResponse_setField_errors Hin).
    intros a. unfold PackingResponse.setField. at_field Hk.
    unfold json.decodeSlice. destruct l as [| x l]; [destruct Hl |].
    cbn [bind Monad_either ret].
    destruct (decodeArray_refuses Pallet.decode (Pallet.store Pallet.zero) (x :: l)
                (json.JObject mp) Pallet_errors Hl
                (fun p => match Pallet_refuses mp p Hbad with
                          | ex_intro _ what H => ex_intro _ _ H
                          end)
                ((match PackingResponse.memPallets a with Some xs => xs | None => [] end
                  ++ PackingResponse.sparePallets a)%list))
      as [what ->].
    eexists. reflexivity.
Qed.

(** X8.  A number that is not a Go [int] in an [int] field of the response
    makes [Pack] fail: it is not cut to 64 bits.  The decoder of an [int]
    stores the whole number [n] that the text writes when [n] fits in 64
    bits, and gives a type error otherwise; and when the body of the answer
    has a member that this decoder refuses for [total_pallets],
    [total_cartons_packed] or [computation_time_ms] of the summary, or for
    the [pallet_id] of a pallet, [Pack] returns no response and a type error
    wrapped as "failed to parse response", whatever the status. *)
Theorem Pack_refuses_int_out_of_range :
  (forall n cur,
      json.decodeInt (json.JNumber (strconv.FormatInt n)) cur
      = if is_int n then inr n
        else inl (UnmarshalTypeError ("number " +++ strconv.FormatInt n))) /\
  (forall url_Parse c ctx request req resp body v,
      Pack_request url_Parse c ctx request = inr req ->
      Client.httpClient c req = inr resp ->
      http.ReadBody resp = inr body ->
      json.parse body = Some v ->
      PackingResponse_bad_int v ->
      exists what,
        Pack url_Parse c ctx request
        = (None, Some (wrapError "failed to parse response: " (UnmarshalTypeError what)))).
Proof.
  split.
  - intros n cur. unfold json.decodeInt, is_int. rewrite ParseInt_FormatInt.
    destruct ((- 2 ^ 63 <=? n) && (n <? 2 ^ 63)); reflexivity.
  - intros url_Parse c ctx request req resp body v Hreq Hdo Hbody Hparse Hbad.
    unfold Pack, Pack_response, Unmarshal. rewrite Hreq, Hdo, Hbody, Hparse.
    destruct (PackingResponse_refuses v (PackingResponse.store PackingResponse.zero) Hbad)
      as [what ->].
    exists what. reflexivity.
Qed.

Lemma Pack_refuses_int_out_of_range_witness :
  exists what,
    Pack accept_url client_overflow context.Background (Some request_TestPack)
    = (None, Some (wrapError "failed to parse response: " (UnmarshalTypeError what))).
Proof.
  destruct (Pack_request accept_url client_overflow context.Background
              (Some request_TestPack)) as [e | req] eqn:Hreq;
    [vm_compute in Hreq; discriminate |].
  eapply (proj2 Pack_refuses_int_out_of_range accept_url client_overflow context.Background
            (Some request_TestPack) req);
    [exact Hreq | reflexivity | reflexivity | vm_compute; reflexivity |].
  eexists. split; [reflexivity |]. left.
  exists "summary", [("total_pallets", json.JNumber "9223372036854775808")], "total_pallets".
  split; [right; left; reflexivity |]. split; [reflexivity |].
  split; [left; reflexivity |].
  exists "total_pallets", (json.JNumber "9223372036854775808").
  eexists. split; [left; reflexivity |]. split; reflexivity.
Defined.

(** When a store skips every member outside [names], so does the decoding
    of an object. *)
Lemma decodeMembers_named {A : Type} (names : list string)
  (set : string -> json.value -> A -> result A) :
  (forall k v a, named names (k, v) = false -> set (json.foldName k) v a = inr a) ->
  forall m a,
    json.decodeMembers set m a = json.decodeMembers set (filter (named names) m) a.
Proof.
  intros Hskip. induction m as [| [k v] m IH]; intros a; [reflexivity |].
  cbn [filter json.decodeMembers].
  destruct (named names (k, v)) eqn:Hn.
  - cbn [json.decodeMembers bind Monad_either].
    destruct (set (json.foldName k) v a) as [e | b]; [reflexivity | apply IH].
  - rewrite (Hskip _ _ _ Hn). cbn [bind Monad_either]. apply IH.
Qed.

(** A name outside the list fails every comparison of [setField]. *)
Ltac skip_member :=
  intros k v a; unfold named; cbn [existsb fst]; intros H;
  repeat (apply orb_false_iff in H; destruct H as [? H]);
  repeat match goal with E : (_ =? _)%string = false |- _ => rewrite E; clear E end;
  reflexivity.

(** X9.  The decoders of the response read the members that bear the
    name of a field tag, names compared under simple case folding as
    [encoding/json] compares them (a letter in either case, U+017F for an s,
    U+212A for a k), and skip every other member, at each level: a server
    may add members of other names to the response, the summary, a placed
    carton, a position or the dimensions without changing what is
    decoded. *)
Theorem response_decoders_skip_other_members :
  (forall m r,
      PackingResponse.decode (json.JObject m) r
      = PackingResponse.decode (json.JObject (filter (named PackingResponse_names) m)) r) /\
  (forall m s,
      PackingSummary.decode (json.JObject m) s
      = PackingSummary.decode (json.JObject (filter (named PackingSummary_names) m)) s) /\
  (forall m p,
      PlacedCarton.decode (json.JObject m) p
      = PlacedCarton.decode (json.JObject (filter (named PlacedCarton_names) m)) p) /\
  (forall m p,
      Point3D.decode (json.JObject m) p
      = Point3D.decode (json.JObject (filter (named Point3D_names) m)) p) /\
  (forall m d,
      Dimensions.decode (json.JObject m) d
      = Dimensions.decode (json.JObject (filter (named Dimensions_names) m)) d).
Proof.
  repeat split; intros m a;
    [ unfold PackingResponse.decode | unfold PackingSummary.decode
    | unfold PlacedCarton.decode | unfold Point3D.decode | unfold Dimensions.decode ];
    unfold json.decodeStruct; apply decodeMembers_named; clear m a.
  - unfold PackingResponse.setField. skip_member.
  - unfold PackingSummary.setField. skip_member.
  - unfold PlacedCarton.setField. skip_member.
  - unfold Point3D.setField. skip_member.
  - unfold Dimensions.setField. skip_member.
Qed.

(** ** [Health] and [Metrics] *)

(** [TestHealth] and [TestMetrics]. *)
Example TestHealth :
  Health accept_url decode_error client_TestHealth context.Background
  = (Some {| HealthResponse.Status := "healthy" |}, None).
Proof. vm_compute. reflexivity. Qed.

Example TestMetrics :
  option_map MetricsResponse.TotalRequests
    (fst (Metrics accept_url decode_error client_TestMetrics context.Background)) = Some 100 /\
  option_map MetricsResponse.TotalCartons
    (fst (Metrics accept_url decode_error client_TestMetrics context.Background)) = Some 500 /\
  snd (Metrics accept_url decode_error client_TestMetrics context.Background) = None.
Proof. repeat split; vm_compute; reflexivity. Qed.

(** X10.  [Health] and [Metrics] look at the status before the body: for a
    status other than 200 they return the status error, whatever the body
    holds and whether or not it can be read; [Pack] decodes first. *)
Theorem status_checked_before_body url_Parse Decode_error c ctx resp :
  http.StatusCode resp <> http.StatusOK ->
  (forall req,
      NewRequestWithContext url_Parse ctx "GET" (Client.baseURL c +++ "/api/v1/health") ""
      = inr req ->
      Client.httpClient c req = inr resp ->
      Health url_Parse Decode_error c ctx
      = (None, Some (errorString
                       ("health check failed with status "
                        +++ strconv.FormatInt (http.StatusCode resp))))) /\
  (forall req,
      NewRequestWithContext url_Parse ctx "GET" (Client.baseURL c +++ "/api/v1/metrics") ""
      = inr req ->
      Client.httpClient c req = inr resp ->
      Metrics url_Parse Decode_error c ctx
      = (None, Some (errorString
                       ("metrics request failed with status "
                        +++ strconv.FormatInt (http.StatusCode resp))))).
Proof.
  intros Hstatus. apply Z.eqb_neq in Hstatus.
  split; intros req Hreq Hdo; [unfold Health | unfold Metrics];
    rewrite Hreq, Hdo, Hstatus; reflexivity.
Qed.

Lemma status_checked_before_body_witness :
  Health accept_url decode_error client_unavailable context.Background
  = (None, Some (errorString "health check failed with status 503")) /\
  Metrics accept_url decode_error client_unavailable context.Background
  = (None, Some (errorString "metrics request failed with status 503")).
Proof.
  assert (http.StatusCode
            {| http.StatusCode := 503;
               http.ReadBody := inr "<html>Service Unavailable</html>" |}
          <> http.StatusOK) as Hstatus by discriminate.
  destruct (status_checked_before_body accept_url decode_error client_unavailable
              context.Background _ Hstatus) as [Hh Hm].
  split; [eapply Hh | eapply Hm]; reflexivity.
Defined.

(** X11.  [Health] and [Metrics] return a response and a nil error, or a nil
    response and an error, never both and never neither. *)
Theorem Health_Metrics_result_xor_error url_Parse Decode_error c ctx :
  ((exists health, Health url_Parse Decode_error c ctx = (Some health, None)) \/
   (exists err, Health url_Parse Decode_error c ctx = (None, Some err))) /\
  ((exists metrics, Metrics url_Parse Decode_error c ctx = (Some metrics, None)) \/
   (exists err, Metrics url_Parse Decode_error c ctx = (None, Some err))).
Proof.
  split; [unfold Health | unfold Metrics];
    (destruct (NewRequestWithContext _ _ _ _ _) as [e | req];
     [right; eexists; reflexivity |];
     destruct (Client.httpClient c req) as [e | resp];
     [right; eexists; reflexivity |];
     destruct (negb (http.StatusCode resp =? http.StatusOK));
     [right; eexists; reflexivity |];
     destruct (Decode _ _ _ _) as [e | x];
     [right | left]; eexists; reflexivity).
Qed.

(** A text that is one JSON document starts with that document. *)
Lemma parse_first_value data v : json.parse data = Some v -> first_value data = Some v.
Proof.
  unfold json.parse, first_value.
  destruct (json.parse_value _ _ _) as [[w r] |]; [| discriminate].
  destruct (json.skip_ws r); [| discriminate].
  intros [= <-]. reflexivity.
Qed.

(** X12.  [Health] and [Metrics] return a response exactly when the request
    was created, the exchange succeeded with status 200, and the decoder
    stored the first JSON value of the body; the response is what it
    stored.  In particular a body that is one JSON document is decoded as
    [json.Unmarshal] would decode it. *)
Theorem Health_Metrics_response_iff url_Parse Decode_error c ctx :
  (forall health,
      Health url_Parse Decode_error c ctx = (Some health, None) <->
      exists req resp,
        NewRequestWithContext url_Parse ctx "GET" (Client.baseURL c +++ "/api/v1/health") ""
        = inr req /\
        Client.httpClient c req = inr resp /\
        http.StatusCode resp = http.StatusOK /\
        Decode Decode_error HealthResponse.decode (http.ReadBody resp) HealthResponse.zero
        = inr health) /\
  (forall metrics,
      Metrics url_Parse Decode_error c ctx = (Some metrics, None) <->
      exists req resp,
        NewRequestWithContext url_Parse ctx "GET" (Client.baseURL c +++ "/api/v1/metrics") ""
        = inr req /\
        Client.httpClient c req = inr resp /\
        http.StatusCode resp = http.StatusOK /\
        Decode Decode_error MetricsResponse.decode (http.ReadBody resp) MetricsResponse.zero
        = inr metrics) /\
  (forall A (decode : json.value -> A -> result A) body v target,
      json.parse body = Some v ->
      Decode Decode_error decode (inr body) target = decode v target).
Proof.
  split; [| split].
  - intros health. unfold Health. split.
    + destruct (NewRequestWithContext _ _ _ _ _) as [e | req]; [discriminate |].
      destruct (Client.httpClient c req) as [e | resp] eqn:Hdo; [discriminate |].
      destruct (http.StatusCode resp =? http.StatusOK) eqn:Hstatus; cbn [negb];
        [| discriminate].
      destruct (Decode _ _ _ _) as [e | h] eqn:Hd; [discriminate |].
      intros [= <-]. exists req, resp. apply Z.eqb_eq in Hstatus. repeat split; assumption.
    + intros (req & resp & Hreq & Hdo & Hstatus & Hd).
      rewrite Hreq, Hdo, Hstatus, Hd. reflexivity.
  - intros metrics. unfold Metrics. split.
    + destruct (NewRequestWithContext _ _ _ _ _) as [e | req]; [discriminate |].
      destruct (Client.httpClient c req) as [e | resp] eqn:Hdo; [discriminate |].
      destruct (http.StatusCode resp =? http.StatusOK) eqn:Hstatus; cbn [negb];
        [| discriminate].
      destruct (Decode _ _ _ _) as [e | h] eqn:Hd; [discriminate |].
      intros [= <-]. exists req, resp. apply Z.eqb_eq in Hstatus. repeat split; assumption.
    + intros (req & resp & Hreq & Hdo & Hstatus & Hd).
      rewrite Hreq, Hdo, Hstatus, Hd. reflexivity.
  - intros A decode body v target Hp. unfold Decode.
    rewrite (parse_first_value _ _ Hp). reflexivity.
Qed.

Lemma Health_Metrics_response_iff_witness :
  Health accept_url decode_error client_TestHealth context.Background
  = (Some {| HealthResponse.Status := "healthy" |}, None).
Proof.
  apply (proj1 (Health_Metrics_response_iff accept_url decode_error client_TestHealth
                  context.Background)).
  do 2 eexists. repeat split; vm_compute; reflexivity.
Defined.

(** X15.  An exchange that fails makes [Health] and [Metrics] return no
    response and an error that wraps the failure as "failed to send
    request": [errors.Unwrap] gives the failure back and [errors.Is] finds in
    the result whatever it finds in the failure. *)
Theorem Health_Metrics_keep_transport_error url_Parse Decode_error c ctx err :
  (forall req,
      NewRequestWithContext url_Parse ctx "GET" (Client.baseURL c +++ "/api/v1/health") ""
      = inr req ->
      Client.httpClient c req = inl err ->
      exists e,
        Health url_Parse Decode_error c ctx = (None, Some e) /\
        Unwrap e = Some err /\
        forall target, errors_Is err target = true -> errors_Is e target = true) /\
  (forall req,
      NewRequestWithContext url_Parse ctx "GET" (Client.baseURL c +++ "/api/v1/metrics") ""
      = inr req ->
      Client.httpClient c req = inl err ->
      exists e,
        Metrics url_Parse Decode_error c ctx = (None, Some e) /\
        Unwrap e = Some err /\
        forall target, errors_Is err target = true -> errors_Is e target = true).
Proof.
  split; intros req Hreq Hdo; [unfold Health | unfold Metrics]; rewrite Hreq, Hdo;
    (eexists; split; [reflexivity |]; split; [reflexivity |];
     intros target; apply errors_Is_wrapError).
Qed.

Lemma Health_Metrics_keep_transport_error_witness :
  exists e,
    Health accept_url decode_error client_timeout context.Background = (None, Some e) /\
    errors_Is e DeadlineExceeded = true.
Proof.
  destruct (Health_Metrics_keep_transport_error accept_url decode_error client_timeout
              context.Background
              (urlError "Post" "http://127.0.0.1:8080/api/v1/health" DeadlineExceeded))
    as [Hh _].
  destruct (Hh _ eq_refl eq_refl) as (e & Hp & _ & His).
  exists e. split; [exact Hp |]. apply His. vm_compute. reflexivity.
Defined.

Lemma decodeUint32_refuses v e cur :
  decodeUint32 v 0 = inl e -> decodeUint32 v cur = inl e.
Proof.
  unfold decodeUint32. destruct v; try (intros H; exact H).
  discriminate.
Qed.

Lemma MetricsResponse_refuses v a :
  MetricsResponse_bad_int v ->
  exists what, MetricsResponse.decode v a = inl (UnmarshalTypeError what).
Proof.
  intros (m & -> & [(tag & Htag & k & x & e & Hin & Hk & Hx) | (k & x & e & Hin & Hk & Hx)]);
    unfold MetricsResponse.decode, json.decodeStruct;
    apply (decodeMembers_refuses MetricsResponse.setField m k x
             MetricsResponse_setField_errors Hin);
    intros b; unfold MetricsResponse.setField.
  - destruct Htag as [<- | [<- | [<- | [<- | [<- | []]]]]]; at_field Hk;
      rewrite (decodeInt_refuses _ _ _ Hx); eexists; reflexivity.
  - at_field Hk. rewrite (decodeUint32_refuses _ _ _ Hx). eexists. reflexivity.
Qed.

(** X13.  A number that does not fit its field makes [Metrics] fail: it
    does not wrap around.  The decoder of [NumGC], a [uint32], stores the
    whole number [n] that the text writes when [0 <= n < 2 ^ 32] and gives a
    type error otherwise, for a negative [n] too; and when the first value
    of a body sent with status 200 has a member that this decoder refuses
    for [num_gc], or one that the decoder of an [int] refuses for one of the
    five [int] fields, [Metrics] returns no response and a type error
    wrapped as "failed to parse response". *)
Theorem Metrics_refuses_int_out_of_range :
  (forall n cur,
      decodeUint32 (json.JNumber (strconv.FormatInt n)) cur
      = if is_uint32 n then inr n
        else inl (UnmarshalTypeError ("number " +++ strconv.FormatInt n))) /\
  (forall url_Parse Decode_error c ctx req resp body v,
      NewRequestWithContext url_Parse ctx "GET" (Client.baseURL c +++ "/api/v1/metrics") ""
      = inr req ->
      Client.httpClient c req = inr resp ->
      http.StatusCode resp = http.StatusOK ->
      http.ReadBody resp = inr body ->
      first_value body = Some v ->
      MetricsResponse_bad_int v ->
      exists what,
        Metrics url_Parse Decode_error c ctx
        = (None, Some (wrapError "failed to parse response: " (UnmarshalTypeError what)))).
Proof.
  split.
  - intros n cur. unfold decodeUint32, is_uint32. rewrite ParseUint_FormatInt.
    destruct (0 <=? n) eqn:H0; cbn [andb]; [| reflexivity].
    destruct (n <? 2 ^ 64) eqn:H64.
    + reflexivity.
    + destruct (n <? 2 ^ 32) eqn:H32; [| reflexivity].
      apply Z.ltb_lt in H32. apply Z.ltb_ge in H64. lia.
  - intros url_Parse Decode_error c ctx req resp body v Hreq Hdo Hstatus Hbody Hv Hbad.
    unfold Metrics, Decode. rewrite Hreq, Hdo, Hstatus, Hbody, Hv. cbn [Z.eqb negb].
    destruct (MetricsResponse_refuses v MetricsResponse.zero Hbad) as [what ->].
    exists what. reflexivity.
Qed.

Lemma Metrics_refuses_int_out_of_range_witness :
  exists what,
    Metrics accept_url decode_error client_overflow_gc context.Background
    = (None, Some (wrapError "failed to parse response: " (UnmarshalTypeError what))).
Proof.
  eapply (proj2 Metrics_refuses_int_out_of_range accept_url decode_error client_overflow_gc
            context.Background);
    [reflexivity | reflexivity | reflexivity | reflexivity | vm_compute; reflexivity |].
  eexists. split; [reflexivity |]. right.
  exists "num_gc", (json.JNumber "4294967296").
  eexists. split; [right; left; reflexivity |]. split; reflexivity.
Defined.

(** ** The conversions in binary64 *)

(** X14.  On whole numbers the conversions are as good as binary64 allows.
    For every whole number up to a million, converting there and back
    ([MMToInches(InchesToMM(n))], [InchesToMM(MMToInches(n))] and the two of
    weight) gives [n] or a binary64 next to it; and for every whole number
    up to twenty thousand each of the four conversions gives the binary64
    nearest to the exact result, or one next to it. *)
Theorem conversions_on_whole_numbers (n : Z) :
  (0 <= n < 1000000 -> length_round_trip n = true /\ weight_round_trip n = true) /\
  (0 <= n < 20000 -> conversions_accurate n = true).
Proof.
  split; intros Hn.
  - split.
    + apply (all_from_0 length_round_trip 1000000);
        [discriminate | vm_compute; reflexivity | exact Hn].
    + apply (all_from_0 weight_round_trip 1000000);
        [discriminate | vm_compute; reflexivity | exact Hn].
  - apply (all_from_0 conversions_accurate 20000);
      [discriminate | vm_compute; reflexivity | exact Hn].
Qed.

Lemma conversions_on_whole_numbers_witness :
  length_round_trip 48 = true /\ weight_round_trip 48 = true /\ conversions_accurate 48 = true.
Proof.
  destruct (conversions_on_whole_numbers 48) as [H1 H2].
  assert (0 <= 48 < 1000000) as Ha by (split; [discriminate | reflexivity]).
  assert (0 <= 48 < 20000) as Hb by (split; [discriminate | reflexivity]).
  destruct (H1 Ha) as [X Y]. exact (conj X (conj Y (H2 Hb))).
Defined.
